(** * Codeforces "wrapped" backend: a shallow embedding of [app.py]

    The development follows the source file top to bottom:

    - [Py]: the fragment of Python the handler relies on (exceptions and
      their [str], JSON values and truthiness, [str.isalnum], insertion
      ordered dictionaries, [collections.Counter], [min]);
    - [PyFloat]: true division of integers, float multiplication and the
      [.2f] format, over binary64 floats;
    - [Datetime]: [utcfromtimestamp], dates, month names and the local
      start of the year;
    - [App]: [handle_exception] and the [generate_wrapped] route. What the
      four [fetch_data] futures yield is an input of the route, so the
      response cache and the network stay outside. *)

From Stdlib Require Import ZArith List String Ascii Floats.
From stdpp Require Import gmap strings list sets sorting pretty.

Local Open Scope string_scope.
Local Open Scope Z_scope.

#[local] Set Warnings "-register-all".

(** ** Python preliminaries *)

Module Py.

(** The exceptions that can reach the handler's [except Exception] clause
    or the application-wide error handler. *)
Inductive exn : Type :=
  | IndexError                      (* [l[0]] on an empty list *)
  | KeyError (key : string)         (* [d[key]] on a missing key *)
  | ZeroDivisionError               (* [a / 0] on integers *)
  | OverflowError (msg : string)
  | ValueError (msg : string)
  | AttributeError (msg : string)   (* [x.get] on a value that is no dict *)
  | RequestException (msg : string) (* raised by [requests.get(...).json()] *)
  | HTTPException (code : Z) (name description : string) (* werkzeug *).

#[global] Instance exn_eq_dec : EqDecision exn.
Proof. solve_decision. Defined.

(** [str(e)]. A [KeyError] prints the [repr] of its key. *)
Definition str_exn (e : exn) : string :=
  match e with
  | IndexError => "list index out of range"
  | KeyError k => "'" +:+ k +:+ "'"
  | ZeroDivisionError => "division by zero"
  | OverflowError m => m
  | ValueError m => m
  | AttributeError m => m
  | RequestException m => m
  | HTTPException c n d => pretty c +:+ " " +:+ n +:+ ": " +:+ d
  end.

(** Computations that may raise. *)
Definition M (A : Type) : Type := exn + A.

Definition ret {A} (a : A) : M A := inr a.
Definition raise {A} (e : exn) : M A := inl e.
Definition bind {A B} (m : M A) (k : A -> M B) : M B :=
  match m with
  | inl e => inl e
  | inr a => k a
  end.

Notation "x <- m ;; k" := (bind m (fun x => k))
  (at level 100, m at next level, right associativity).

(** [mapM f l]: a comprehension whose element expression may raise; the
    first failing element decides. *)
Fixpoint mapM {A B} (f : A -> M B) (l : list A) : M (list B) :=
  match l with
  | [] => ret []
  | a :: l' => b <- f a ;; bs <- mapM f l' ;; ret (b :: bs)
  end.

(** [l[0]]. *)
Definition item0 {A} (l : list A) : M A :=
  match l with
  | [] => raise IndexError
  | a :: _ => ret a
  end.

(** [l[-1]]. *)
Definition item_last {A} (l : list A) : M A :=
  match last l with
  | None => raise IndexError
  | Some a => ret a
  end.

(** [d[key]] for an optional record field. *)
Definition field {A} (key : string) (o : option A) : M A :=
  match o with
  | None => raise (KeyError key)
  | Some a => ret a
  end.

(** JSON documents as Python sees them after decoding, and as [jsonify]
    receives them. *)
Inductive value : Type :=
  | VNone
  | VBool (b : bool)
  | VInt (n : Z)
  | VFloat (f : float)
  | VStr (s : string)
  | VList (l : list value)
  | VDict (d : list (string * value)).

(** [bool(v)]: what [not username] tests. *)
Definition truthy (v : value) : bool :=
  match v with
  | VNone => false
  | VBool b => b
  | VInt n => negb (n =? 0)
  | VFloat f => negb (PrimFloat.eqb f PrimFloat.zero)
  | VStr s => negb (String.eqb s "")
  | VList l => match l with [] => false | _ => true end
  | VDict d => match d with [] => false | _ => true end
  end.

(** [isinstance(v, str)], returning the string. *)
Definition as_str (v : value) : option string :=
  match v with
  | VStr s => Some s
  | _ => None
  end.

(** [str.isalnum] on ASCII text: letters and digits only, and at least
    one character. Bytes above 127 are taken as not alphanumeric; for
    text with such characters Python consults the Unicode database, which
    the model does not have, so what is stated about handles is stated
    for handles that ASCII characters decide. *)
Definition ascii_isalnum (c : ascii) : bool :=
  let n := N_of_ascii c in
  ((48 <=? n) && (n <=? 57) || (65 <=? n) && (n <=? 90)
   || (97 <=? n) && (n <=? 122))%N.

Fixpoint all_alnum (s : string) : bool :=
  match s with
  | EmptyString => true
  | String c s' => ascii_isalnum c && all_alnum s'
  end.

Definition isalnum (s : string) : bool :=
  match s with
  | EmptyString => false
  | _ => all_alnum s
  end.

(** *** Dictionaries

    A [dict] keeps its keys in insertion order; storing under a key that
    is already present replaces the value and leaves the position. *)
Section dict.
Context {K V : Type} `{EqDecision K}.

Fixpoint dict_get (k : K) (d : list (K * V)) : option V :=
  match d with
  | [] => None
  | (k', v) :: d' => if decide (k = k') then Some v else dict_get k d'
  end.

Fixpoint dict_set (k : K) (v : V) (d : list (K * V)) : list (K * V) :=
  match d with
  | [] => [(k, v)]
  | (k', v') :: d' =>
      if decide (k = k') then (k', v) :: d' else (k', v') :: dict_set k v d'
  end.

(** A dictionary display [{k1: v1, ..., kn: vn}]: the items are stored
    from left to right. *)
Definition dict_display (items : list (K * V)) : list (K * V) :=
  fold_left (fun d kv => dict_set kv.1 kv.2 d) items [].

Definition dict_keys (d : list (K * V)) : list K := map fst d.
End dict.

(** [type(v).__name__]. *)
Definition type_name (v : value) : string :=
  match v with
  | VNone => "NoneType"
  | VBool _ => "bool"
  | VInt _ => "int"
  | VFloat _ => "float"
  | VStr _ => "str"
  | VList _ => "list"
  | VDict _ => "dict"
  end.

(** [data.get(key)] on a decoded request body: only a [dict] has the
    method. *)
Definition value_get (data : value) (key : string) : M value :=
  match data with
  | VDict d => ret (default VNone (dict_get key d))
  | _ => raise (AttributeError
                  ("'" +:+ type_name data +:+ "' object has no attribute 'get'"))
  end.

(** *** [collections.Counter] *)

(** [Counter(l)]: one pass, [c[x] = c.get(x, 0) + 1]. *)
Definition counter_incr (c : list (string * nat)) (x : string)
  : list (string * nat) :=
  dict_set x (S (default 0%nat (dict_get x c))) c.

Definition Counter (l : list string) : list (string * nat) :=
  fold_left counter_incr l [].

(** [max(items, key=itemgetter(1))]: the running best is replaced only by
    a strictly larger count, so the first maximal item wins. *)
Fixpoint max_count (best : string * nat) (items : list (string * nat))
  : string * nat :=
  match items with
  | [] => best
  | x :: items' => max_count (if (best.2 <? x.2)%nat then x else best) items'
  end.

(** [c.most_common(1)]. *)
Definition most_common_1 (c : list (string * nat)) : list (string * nat) :=
  match c with
  | [] => []
  | x :: c' => [max_count x c']
  end.

(** [min(l)] on a non-empty list of integers. *)
Definition min_list (x : Z) (l : list Z) : Z := fold_left Z.min l x.

End Py.

(** ** Floats: [int / int], [float * float] and [format(x, ".2f")] *)

Module PyFloat.
Import Py.

(** The integer nearest to [num / den] for [0 < den], ties to even. *)
Definition round_half_even (num den : Z) : Z :=
  let q := num / den in
  match 2 * (num mod den) ?= den with
  | Lt => q
  | Eq => if Z.even q then q else q + 1
  | Gt => q + 1
  end.

(** [q * 2^e] as a float, for [0 <= q <= 2^53]. *)
Definition scale (q e : Z) : float := Z.ldexp (of_uint63 (Uint63.of_Z q)) e.

(** [a / b] on integers: the binary64 float nearest to the exact
    quotient (ties to even), a signed zero on underflow, and an error
    when the divisor is zero or the quotient is beyond the float range. *)
Definition true_divide (a b : Z) : M float :=
  let negate := xorb (a <? 0) (b <? 0) in
  let x := Z.abs a in
  let y := Z.abs b in
  if b =? 0 then raise ZeroDivisionError
  else if a =? 0 then ret (if negate then neg_zero else zero)
  else
    let d := Z.log2 x - Z.log2 y in
    (* the binary exponent of x / y *)
    let ex := if y * 2 ^ Z.max d 0 <=? x * 2 ^ Z.max (- d) 0 then d else d - 1 in
    (* the exponent of the last place: 53 significant bits, none below 2^-1074 *)
    let e := Z.max (ex - 52) (-1074) in
    let q := round_half_even (x * 2 ^ Z.max (- e) 0) (y * 2 ^ Z.max e 0) in
    if (971 <? e) || (e =? 971) && (q =? 2 ^ 53)
    then raise (OverflowError "integer division result too large for a float")
    else ret (if negate then PrimFloat.opp (scale q e) else scale q e).

(** The float [100.0] that the integer literal [100] becomes in
    [float * 100]. *)
Definition hundred : float := Eval compute in of_uint63 (Uint63.of_Z 100).

Definition two_digits (n : Z) : string := pretty (n / 10) +:+ pretty (n mod 10).

(** [format(x, ".2f")]: the exact value of [x] rounded to two decimals,
    ties to even; the sign is kept even when the digits are all zero. *)
Definition format_2f (x : float) : string :=
  match Prim2SF x with
  | S754_nan => "nan"
  | S754_infinity s => if s then "-inf" else "inf"
  | S754_zero s => if s then "-0.00" else "0.00"
  | S754_finite s m e =>
      let n := round_half_even (Z.pos m * 100 * 2 ^ Z.max e 0) (2 ^ Z.max (- e) 0) in
      (if s then "-" else "") +:+ pretty (n / 100) +:+ "." +:+ two_digits (n mod 100)
  end.

End PyFloat.

(** ** Dates *)

Module Datetime.
Import Py.

(** A [date] is represented by its day number counted from 1970-01-01
    (Python's [toordinal] minus 719163): equality, order and
    [+ timedelta(days=1)] on dates are those of the day numbers. *)
Definition date : Type := Z.

(** Day number of a day of the proleptic Gregorian calendar. *)
Definition days_from_civil (y m d : Z) : Z :=
  let y' := if m <=? 2 then y - 1 else y in
  let era := y' / 400 in
  let yoe := y' - era * 400 in
  let doy := (153 * (if 2 <? m then m - 3 else m + 9) + 2) / 5 + d - 1 in
  let doe := yoe * 365 + yoe / 4 - yoe / 100 + doy in
  era * 146097 + doe - 719468.

(** Year, month and day of a day number. *)
Definition civil_from_days (z : Z) : Z * Z * Z :=
  let z' := z + 719468 in
  let era := z' / 146097 in
  let doe := z' - era * 146097 in
  let yoe := (doe - doe / 1460 + doe / 36524 - doe / 146096) / 365 in
  let doy := doe - (365 * yoe + yoe / 4 - yoe / 100) in
  let mp := (5 * doy + 2) / 153 in
  let d := doy - (153 * mp + 2) / 5 + 1 in
  let m := if mp <? 10 then mp + 3 else mp - 9 in
  (if m <=? 2 then yoe + era * 400 + 1 else yoe + era * 400, m, d).

Definition year_of (d : date) : Z := (civil_from_days d).1.1.
Definition month_of (d : date) : Z := (civil_from_days d).1.2.

Definition MINYEAR : Z := 1.
Definition MAXYEAR : Z := 9999.

(** [datetime.utcfromtimestamp(ts).date()] for an integer [ts]: the UTC
    day the second falls in. Years outside [MINYEAR..MAXYEAR] are
    refused. (Beyond the range of C's [struct tm] the platform reports
    the failure under another exception; the model keeps [ValueError].) *)
Definition utcfromtimestamp_date (ts : Z) : M date :=
  let d := ts / 86400 in
  let y := year_of d in
  if (MINYEAR <=? y) && (y <=? MAXYEAR) then ret d
  else raise (ValueError ("year " +:+ pretty y +:+ " is out of range")).

(** [strftime("%B")] in the C locale. *)
Definition month_name (m : Z) : string :=
  match m with
  | 1 => "January" | 2 => "February" | 3 => "March" | 4 => "April"
  | 5 => "May" | 6 => "June" | 7 => "July" | 8 => "August"
  | 9 => "September" | 10 => "October" | 11 => "November"
  | _ => "December"
  end.

(** [datetime.utcfromtimestamp(ts).strftime("%B")]. *)
Definition utcfromtimestamp_month (ts : Z) : M string :=
  d <- utcfromtimestamp_date ts ;; ret (month_name (month_of d)).

(** The server's wall clock: the current instant in seconds since the
    epoch, and the offset of the server's time zone from UTC in seconds
    (east positive), taken as fixed over the year. *)
Record clock : Type := { now : Z; utcoffset : Z }.

(** [datetime.now().year]: the year of the local calendar. *)
Definition local_year (c : clock) : Z := year_of ((now c + utcoffset c) / 86400).

(** [datetime(y, 1, 1).timestamp()]: a naive [datetime] is read as local
    time, so this is the instant at which the local calendar shows
    midnight of January 1. The float it returns is a whole number, and
    comparing an integer with it is exact. *)
Definition naive_timestamp (c : clock) (y : Z) : Z :=
  days_from_civil y 1 1 * 86400 - utcoffset c.

(** Midnight of January 1 of year [y] in UTC. *)
Definition utc_timestamp (y : Z) : Z := days_from_civil y 1 1 * 86400.

(** The year of the UTC calendar at the current instant. *)
Definition utc_year (c : clock) : Z := year_of (now c / 86400).

End Datetime.

(** ** The application *)

Module App.
Import Py PyFloat Datetime.

(** *** Upstream payloads, in the shape the Codeforces API documents *)

(** An element of [user.info]'s result. *)
Record user : Type := {
  rank : option string;
  maxRank : option string;
  rating : option Z
}.

Record problem : Type := {
  contestId : Z;
  index : string;
  tags : option (list string)
}.

(** An element of [user.status]'s result. *)
Record submission : Type := {
  sub_problem : problem;           (* [sub["problem"]] *)
  verdict : string;
  creationTimeSeconds : Z
}.

(** An element of [user.rating]'s result; [contest_rank] is its ["rank"]. *)
Record contest : Type := {
  contest_rank : Z;
  oldRating : Z;
  newRating : Z;
  ratingUpdateTimeSeconds : Z
}.

(** The envelope of every API answer. *)
Record api (A : Type) : Type := { status : string; result : list A }.
Arguments status {A} _.
Arguments result {A} _.

(** What the four [fetch_data] futures yield, each either a decoded
    answer or the exception [future.result()] raises again. *)
Record upstream : Type := {
  user_info : M (api user);
  user_status : M (api submission);
  user_rating : M (api contest);
  tourist_info : M (api user)
}.

(** The process environment: [BASE_URL] and the wall clock. *)
Record server : Type := { BASE_URL : string; wall : clock }.

(** *** The statistics, line by line *)

Definition accepted (sub : submission) : Prop := verdict sub = "OK".

#[global] Instance accepted_dec sub : Decision (accepted sub).
Proof. unfold accepted. apply _. Defined.

(** [f"{sub['problem']['contestId']}-{sub['problem']['index']}"]. *)
Definition problem_key (sub : submission) : string :=
  pretty (contestId (sub_problem sub)) +:+ "-" +:+ index (sub_problem sub).

(** [datetime(datetime.now().year, 1, 1).timestamp()], the value of the
    local variable [year_start]. *)
Definition year_start (c : clock) : Z := naive_timestamp c (local_year c).

(** [sub["creationTimeSeconds"] >= year_start]. *)
Definition this_year (ys : Z) (sub : submission) : Prop :=
  ys <= creationTimeSeconds sub.

#[global] Instance this_year_dec ys sub : Decision (this_year ys sub).
Proof. unfold this_year. apply _. Defined.

Definition total_solved (submissions : list submission) : gset string :=
  list_to_set (problem_key <$> filter accepted submissions).

Definition yearly_solved (ys : Z) (submissions : list submission)
  : gset string :=
  list_to_set
    (problem_key <$>
       filter (fun sub => accepted sub /\ this_year ys sub) submissions).

(** [sorted({... .date() for sub in submissions if ...})]. *)
Definition solved_days (submissions : list submission) : M (list date) :=
  days <- mapM (fun sub => utcfromtimestamp_date (creationTimeSeconds sub))
               (filter accepted submissions) ;;
  ret (merge_sort Z.le (elements (list_to_set days : gset Z))).

(** The loop over [range(1, len(solved_days))], carrying
    [(longest_streak, current_streak)]. *)
Fixpoint streak_loop (days : list date) (longest current : Z) : Z * Z :=
  match days with
  | prev :: (next :: _) as rest =>
      if decide (next = prev + 1)
      then streak_loop rest longest (current + 1)
      else streak_loop rest (Z.max longest current) 1
  | _ => (longest, current)
  end.

Definition longest_streak (days : list date) : Z :=
  let '(longest, current) := streak_loop days 0 1 in
  Z.max longest current.

Definition topics (submissions : list submission) : list string :=
  sub ← filter accepted submissions; default [] (tags (sub_problem sub)).

(** [Counter(l).most_common(1)[0][0] if l else "N/A"]. *)
Definition most_common_or_na (l : list string) : M string :=
  match l with
  | [] => ret "N/A"
  | _ => top <- item0 (most_common_1 (Counter l)) ;; ret top.1
  end.

Definition highest_rank (contests : list contest) : value :=
  match contest_rank <$> contests with
  | [] => VStr "N/A"
  | r :: rs => VInt (min_list r rs)
  end.

Definition yearly_contests (ys : Z) (contests : list contest)
  : list contest :=
  filter (fun c => ys <= ratingUpdateTimeSeconds c) contests.

Definition rating_improvement (ys : Z) (user_data : user)
    (contests : list contest) : M Z :=
  let yc := yearly_contests ys contests in
  start_rating <-
    match yc with
    | [] => ret (default 0 (rating user_data))
    | _ => c <- item0 yc ;; ret (oldRating c)
    end ;;
  end_rating <-
    match yc with
    | [] => ret (default 0 (rating user_data))
    | _ => c <- item_last yc ;; ret (newRating c)
    end ;;
  ret (end_rating - start_rating).

(** [f"Top { (user_data['rating'] / HIGHEST_RATED_USER) * 100:.2f}%"]. *)
Definition global_percentile (user_data : user) (HIGHEST_RATED_USER : Z)
  : M string :=
  match rating user_data with
  | Some r =>
      x <- true_divide r HIGHEST_RATED_USER ;;
      ret ("Top " +:+ format_2f (PrimFloat.mul x hundred) +:+ "%")
  | None => ret "N/A"
  end.

Definition submission_months (submissions : list submission)
  : M (list string) :=
  mapM (fun sub => utcfromtimestamp_month (creationTimeSeconds sub))
       (filter accepted submissions).

(** The dictionary display keyed by the six conditions. *)
Definition milestone_conditions (total_solved_len : nat) (current_rank : string)
    (user_data : user) (contests_participated : nat) (streak : Z)
    (yearly_solved_len : nat) : list (bool * string) :=
  dict_display
    [ (bool_decide (500 <= total_solved_len)%nat, "Solved 500+ problems");
      (bool_decide (current_rank ∈ ["grandmaster"; "legendary grandmaster"]),
       "Achieved Grandmaster rank");
      (bool_decide (3000 <= default 0 (rating user_data)),
       "Reached a rating of 3000+");
      (bool_decide (10 <= contests_participated)%nat,
       "Participated in 10+ contests");
      (bool_decide (7 <= streak), "Maintained a streak of 7+ days");
      (bool_decide (100 <= yearly_solved_len)%nat,
       "Solved 100+ problems this year") ].

(** [[message for condition, message in d.items() if condition]]. *)
Definition milestones (d : list (bool * string)) : list string :=
  snd <$> filter (fun cm => cm.1 = true) d.

(** The local variables of the [try] block once every statistic has been
    computed (source lines 91 to 144). *)
Record locals : Type := {
  l_current_rank : string;
  l_max_rank : string;
  l_total_solved : gset string;
  l_yearly_solved : gset string;
  l_longest_streak : Z;
  l_favorite_topic : string;
  l_highest_rank : value;
  l_contests_participated : nat;
  l_rating_improvement : Z;
  l_global_percentile : string;
  l_best_month : string;
  l_milestones : list string
}.

Definition compute_locals (srv : server) (user_data : user)
    (submissions : list submission) (contests : list contest)
    (HIGHEST_RATED_USER : Z) : M locals :=
  let current_rank := default "N/A" (rank user_data) in
  let max_rank := default "N/A" (maxRank user_data) in
  let total := total_solved submissions in
  let ys := year_start (wall srv) in
  let yearly := yearly_solved ys submissions in
  days <- solved_days submissions ;;
  let streak := longest_streak days in
  favorite_topic <- most_common_or_na (topics submissions) ;;
  let highest := highest_rank contests in
  let contests_participated := length contests in
  improvement <- rating_improvement ys user_data contests ;;
  percentile <- global_percentile user_data HIGHEST_RATED_USER ;;
  months <- submission_months submissions ;;
  best_month <- most_common_or_na months ;;
  let collected :=
    milestones
      (milestone_conditions (size total) current_rank user_data
         contests_participated streak (size yearly)) in
  ret {| l_current_rank := current_rank;
         l_max_rank := max_rank;
         l_total_solved := total;
         l_yearly_solved := yearly;
         l_longest_streak := streak;
         l_favorite_topic := favorite_topic;
         l_highest_rank := highest;
         l_contests_participated := contests_participated;
         l_rating_improvement := improvement;
         l_global_percentile := percentile;
         l_best_month := best_month;
         l_milestones := collected |}.

(** The [response] dictionary (source lines 147 to 160). *)
Definition response_dict (username : string) (l : locals)
  : list (string * value) :=
  dict_display
    [ ("username", VStr username);
      ("current_rank", VStr (l_current_rank l));
      ("highest_rank", l_highest_rank l);
      ("longest_streak", VInt (l_longest_streak l));
      ("problems_solved_this_year", VInt (Z.of_nat (size (l_yearly_solved l))));
      ("total_problems_solved", VInt (Z.of_nat (size (l_total_solved l))));
      ("favorite_topic", VStr (l_favorite_topic l));
      ("contests_participated", VInt (Z.of_nat (l_contests_participated l)));
      ("rating_improvement", VInt (l_rating_improvement l));
      ("best_month", VStr (l_best_month l));
      ("motivational_message", VStr "Keep pushing your limits!");
      ("global_percentile", VStr (l_global_percentile l)) ].

(** *** The HTTP layer *)

(** A Flask return value: the JSON body and the status code. *)
Definition response : Type := value * Z.

Definition jsonify (d : list (string * value)) : value := VDict d.

Definition error_response (msg : string) (code : Z) : response :=
  (jsonify [("error", VStr msg)], code).

(** What a request does besides answering: the tasks handed to the
    executor and the lines written to the log. *)
Inductive event : Type :=
  | Submit (url : string) (params : string * string)
  | LogError (msg : string).

Record outcome : Type := { events : list event; answer : response }.

(** [handle_exception], the application-wide [errorhandler(Exception)]. *)
Definition handle_exception (e : exn) : outcome :=
  {| events := [LogError ("An error occurred: " +:+ str_exn e)];
     answer :=
       match e with
       | HTTPException code _ description => error_response description code
       | _ => error_response "An unexpected error occurred" 500
       end |}.

(** The body of the [try] block after the four futures have been
    submitted (source lines 75 to 162). *)
Definition aggregate (srv : server) (username : string) (up : upstream)
  : M response :=
  info <- user_info up ;;
  stat <- user_status up ;;
  rat <- user_rating up ;;
  tourist <- tourist_info up ;;
  if bool_decide (Exists (fun s => s <> "OK")
                    [status info; status stat; status rat; status tourist])
  then ret (error_response "Failed to fetch data from Codeforces API" 500)
  else
    user_data <- item0 (result info) ;;
    let submissions := result stat in
    let contests := result rat in
    tourist_data <- item0 (result tourist) ;;
    HIGHEST_RATED_USER <- field "rating" (rating tourist_data) ;;
    l <- compute_locals srv user_data submissions contests HIGHEST_RATED_USER ;;
    ret (jsonify (response_dict username l), 200).

(** The four [executor.submit(fetch_data, ...)] calls. *)
Definition submits (srv : server) (username : string) : list event :=
  [ Submit (BASE_URL srv +:+ "/user.info") ("handles", username);
    Submit (BASE_URL srv +:+ "/user.status") ("handle", username);
    Submit (BASE_URL srv +:+ "/user.rating") ("handle", username);
    Submit (BASE_URL srv +:+ "/user.info") ("handles", "tourist") ].

(** The route [POST /generate_wrapped]. [request_json] is what
    [request.json] evaluates to: the decoded body, or the HTTP error Flask
    raises for a body it cannot decode. An exception that leaves the view
    function reaches [handle_exception]. *)
Definition generate_wrapped (srv : server) (request_json : M value)
    (up : upstream) : outcome :=
  match data <- request_json ;; value_get data "username" with
  | inl e => handle_exception e
  | inr username =>
      if negb (truthy username)
      then {| events := []; answer := error_response "Username is required" 400 |}
      else
        match as_str username with
        | None =>
            {| events := [];
               answer := error_response "Invalid username format" 400 |}
        | Some name =>
            if negb (isalnum name)
            then {| events := [];
                    answer := error_response "Invalid username format" 400 |}
            else
              match aggregate srv name up with
              | inr r => {| events := submits srv name; answer := r |}
              | inl e =>
                  {| events :=
                       submits srv name ++
                       [LogError ("Exception in generate_wrapped: " +:+ str_exn e)];
                     answer := error_response (str_exn e) 500 |}
              end
        end
  end.

End App.

(** ** Vocabulary of the statements *)

Module Spec.
Import Py Datetime App.

(** The request was answered with status 200 and the record [d]. *)
Definition success (o : outcome) (d : list (string * value)) : Prop :=
  answer o = (jsonify d, 200) /\ dict_get "error" d = None.

(** The answer is a failure document [{"error": msg}]. *)
Definition is_error (r : response) : Prop :=
  exists msg code, r = error_response msg code.

(** The identity of the problem a submission is for. *)
Definition identity (sub : submission) : Z * string :=
  (contestId (sub_problem sub), index (sub_problem sub)).

(** [c[k]] on a [Counter]: zero for a key never counted. *)
Definition tally (c : list (string * nat)) (k : string) : nat :=
  default 0%nat (dict_get k c).

(** Rating improvement as the specification words it: over the contest
    results on or after the year start, in their original order, the
    [newRating] of the last minus the [oldRating] of the first, and 0
    when there is none. *)
Definition rating_improvement_spec (ys : Z) (contests : list contest) : Z :=
  match filter (fun c => ys <= ratingUpdateTimeSeconds c) contests with
  | [] => 0
  | first :: rest => newRating (List.last rest first) - oldRating first
  end.

(** The submissions for other problems than [id]. *)
Definition others (id : Z * string) (submissions : list submission)
  : list submission :=
  filter (fun s => identity s <> id) submissions.

(** The number of occurrences of [k] in [l]. *)
Definition occurrences (k : string) (l : list string) : nat :=
  length (filter (fun x => x = k) l).

(** Decimal digits, for the shape of a printed integer. *)
Definition is_digit (c : ascii) : bool :=
  ((48 <=? N_of_ascii c) && (N_of_ascii c <=? 57))%N.

Fixpoint all_digits (s : string) : bool :=
  match s with
  | EmptyString => true
  | String c s' => is_digit c && all_digits s'
  end.

(** How many of the accepted submissions fall in the month named [m]. *)
Definition accepted_in_month (m : string) (submissions : list submission)
  : nat :=
  length (filter (fun s => utcfromtimestamp_month (creationTimeSeconds s) = inr m)
            (filter accepted submissions)).

(** How many times the accepted submissions carry the tag [tag], each
    submission counted for itself. *)
Definition accepted_with_tag (tag : string) (submissions : list submission)
  : nat :=
  sum_list_with (fun s => occurrences tag (default [] (tags (sub_problem s))))
    (filter accepted submissions).

(** What the milestone conditions look at, the profile's rating apart:
    problems solved, current rank, contests, longest streak and problems
    solved this year. *)
Definition milestone_inputs (l : locals) : nat * string * nat * Z * nat :=
  (size (l_total_solved l), l_current_rank l, l_contests_participated l,
   l_longest_streak l, size (l_yearly_solved l)).

(** The start of the current calendar year in UTC. *)
Definition utc_year_start (c : clock) : Z := utc_timestamp (utc_year c).

(** The keys the specification lists for the returned record. *)
Definition specified_keys : list string :=
  [ "username"; "current_rank"; "max_rank"; "total_problems_solved";
    "problems_solved_this_year"; "longest_streak"; "favorite_topic";
    "highest_rank"; "contests_participated"; "rating_improvement";
    "best_month"; "global_percentile"; "milestones";
    "motivational_message" ].

End Spec.

(** ** Concrete requests *)

Module Samples.
Import Py Datetime App.

Definition api_url : string := "https://codeforces.com/api".

(** Noon of 2024-07-01 UTC on a server that runs in UTC. *)
Definition srv_utc : server :=
  {| BASE_URL := api_url; wall := {| now := 1719835200; utcoffset := 0 |} |}.

(** The same instant on a server whose zone is UTC+05:30. *)
Definition srv_ist : server :=
  {| BASE_URL := api_url; wall := {| now := 1719835200; utcoffset := 19800 |} |}.

Definition post (name : string) : M value := inr (VDict [("username", VStr name)]).

Definition ok {A} (l : list A) : M (api A) := inr {| status := "OK"; result := l |}.

Definition sub (c : Z) (i : string) (tg : list string) (v : string) (t : Z)
  : submission :=
  {| sub_problem := {| contestId := c; index := i; tags := Some tg |};
     verdict := v; creationTimeSeconds := t |}.

Definition expert : user :=
  {| rank := Some "expert"; maxRank := Some "candidate master";
     rating := Some 1500 |}.

Definition grandmaster : user :=
  {| rank := Some "grandmaster"; maxRank := Some "grandmaster";
     rating := Some 2500 |}.

Definition tourist : user :=
  {| rank := Some "legendary grandmaster";
     maxRank := Some "legendary grandmaster"; rating := Some 3000 |}.

Definition tourist_unrated : user :=
  {| rank := Some "legendary grandmaster";
     maxRank := Some "legendary grandmaster"; rating := Some 0 |}.

(** 2024-01-01 00:00:00 UTC. *)
Definition jan1_2024 : Z := 1704067200.

(** Accepted on January 1, 2, 3 and 5 of 2024 and once in February 1970;
    problem 1-A is accepted twice, one attempt is rejected. *)
Definition history : list submission :=
  [ sub 1 "A" ["dp"; "math"] "OK" jan1_2024;
    sub 1 "A" ["dp"] "OK" (jan1_2024 + 86400);
    sub 2 "B" ["greedy"; "math"] "WRONG_ANSWER" (jan1_2024 + 90000);
    sub 3 "C" ["math"] "OK" (jan1_2024 + 2 * 86400);
    sub 3 "D" [] "OK" (jan1_2024 + 4 * 86400);
    sub 7 "A" ["strings"] "OK" 5000000 ].

Definition ratings : list contest :=
  [ {| contest_rank := 512; oldRating := 1380; newRating := 1420;
       ratingUpdateTimeSeconds := 1690000000 |};
    {| contest_rank := 340; oldRating := 1420; newRating := 1465;
       ratingUpdateTimeSeconds := 1706000000 |};
    {| contest_rank := 207; oldRating := 1465; newRating := 1500;
       ratingUpdateTimeSeconds := 1712000000 |} ].

Definition up_typical : upstream :=
  {| user_info := ok [expert]; user_status := ok history;
     user_rating := ok ratings; tourist_info := ok [tourist] |}.

(** The statistics of [up_typical] in 2024. *)
Definition typical_locals : locals :=
  {| l_current_rank := "expert"; l_max_rank := "candidate master";
     l_total_solved := total_solved history;
     l_yearly_solved := yearly_solved jan1_2024 history;
     l_longest_streak := 3; l_favorite_topic := "dp";
     l_highest_rank := VInt 207; l_contests_participated := 3;
     l_rating_improvement := 80;
     l_global_percentile := "Top 50.00%"; l_best_month := "January";
     l_milestones := [] |}.

(** A user with no submission and no contest. *)
Definition up_empty : upstream :=
  {| user_info := ok [expert]; user_status := ok [];
     user_rating := ok []; tourist_info := ok [tourist] |}.

(** The reference user carries rating 0. *)
Definition up_zero_reference : upstream :=
  {| user_info := ok [expert]; user_status := ok history;
     user_rating := ok ratings; tourist_info := ok [tourist_unrated] |}.

(** [n] accepted submissions for [n] different problems, all on
    1970-01-01. *)
Fixpoint solved (n : nat) : list submission :=
  match n with
  | O => []
  | S k => sub (Z.of_nat n) "A" [] "OK" 0 :: solved k
  end.

(** A grandmaster with 500 problems solved long ago and no contest on
    record. *)
Definition up_grandmaster : upstream :=
  {| user_info := ok [grandmaster]; user_status := ok (solved 500);
     user_rating := ok []; tourist_info := ok [tourist] |}.

(** One problem accepted at 2023-12-31 20:00:00 UTC, which is
    2024-01-01 01:30:00 at UTC+05:30. *)
Definition new_years_eve : submission := sub 1900 "A" ["math"] "OK" 1704052800.

Definition up_new_years_eve : upstream :=
  {| user_info := ok [expert]; user_status := ok [new_years_eve];
     user_rating := ok []; tourist_info := ok [tourist] |}.

(** One contest whose rating update is at 2023-12-31 20:00:00 UTC. *)
Definition late_contest : contest :=
  {| contest_rank := 120; oldRating := 1450; newRating := 1500;
     ratingUpdateTimeSeconds := 1704052800 |}.

Definition up_late_contest : upstream :=
  {| user_info := ok [expert]; user_status := ok [];
     user_rating := ok [late_contest]; tourist_info := ok [tourist] |}.

End Samples.

(** ** Further vocabulary and requests *)

Module Vocabulary.
Import Py Datetime App Spec.

(** The exception of the first future that raises, in the order the
    route asks for the results. *)
Definition first_failure (up : upstream) : option exn :=
  match user_info up, user_status up, user_rating up, tourist_info up with
  | inl e, _, _, _ => Some e
  | _, inl e, _, _ => Some e
  | _, _, inl e, _ => Some e
  | _, _, _, inl e => Some e
  | _, _, _, _ => None
  end.

(** The four futures returned these answers. *)
Definition fetched (up : upstream) (info : api user) (stat : api submission)
    (rat : api contest) (tou : api user) : Prop :=
  user_info up = inr info /\ user_status up = inr stat
  /\ user_rating up = inr rat /\ tourist_info up = inr tou.

(** Every answer reports status [OK]. *)
Definition all_ok (info : api user) (stat : api submission)
    (rat : api contest) (tou : api user) : Prop :=
  status info = "OK" /\ status stat = "OK" /\ status rat = "OK"
  /\ status tou = "OK".

(** The answer Codeforces gives for a handle it does not know. *)
Definition failed {A} : M (api A) := inr {| status := "FAILED"; result := [] |}.

Definition up_unknown_handle : upstream :=
  {| user_info := failed; user_status := failed; user_rating := failed;
     tourist_info := Samples.ok [Samples.tourist] |}.

(** The connection breaks while the submissions are fetched. *)
Definition up_broken : upstream :=
  {| user_info := Samples.ok [Samples.expert];
     user_status := inl (RequestException "Connection aborted.");
     user_rating := failed;
     tourist_info := inl (RequestException "Read timed out.") |}.

(** Status [OK] with an empty profile list. *)
Definition up_no_profile : upstream :=
  {| user_info := Samples.ok []; user_status := Samples.ok [];
     user_rating := Samples.ok [];
     tourist_info := Samples.ok [Samples.tourist] |}.

(** The text key of a problem identity. *)
Definition identity_key (id : Z * string) : string :=
  pretty id.1 +:+ "-" +:+ id.2.

(** [k] calendar days in a row, starting at some day [d], all belong to
    [days]. *)
Definition has_run (days : list Z) (k : Z) : Prop :=
  exists d, forall i, 0 <= i < k -> d + i ∈ days.

(** The UTC day number of a second. *)
Definition utc_day (ts : Z) : Z := ts / 86400.

(** One of the accepted submissions was made on UTC day [d]. *)
Definition solved_on (submissions : list submission) (d : Z) : Prop :=
  exists s, s ∈ submissions /\ accepted s /\ utc_day (creationTimeSeconds s) = d.

(** The distinct elements of a list, in the order of their first
    occurrence. *)
Fixpoint distinct (l : list string) : list string :=
  match l with
  | [] => []
  | x :: l' => x :: filter (fun y => y <> x) (distinct l')
  end.

(** The six conditions and their messages, in the order of the source. *)
Definition milestone_items (total_solved_len : nat) (current_rank : string)
    (user_data : user) (contests_participated : nat) (streak : Z)
    (yearly_solved_len : nat) : list (bool * string) :=
  [ (bool_decide (500 <= total_solved_len)%nat, "Solved 500+ problems");
    (bool_decide (current_rank ∈ ["grandmaster"; "legendary grandmaster"]),
     "Achieved Grandmaster rank");
    (bool_decide (3000 <= default 0 (rating user_data)),
     "Reached a rating of 3000+");
    (bool_decide (10 <= contests_participated)%nat,
     "Participated in 10+ contests");
    (bool_decide (7 <= streak), "Maintained a streak of 7+ days");
    (bool_decide (100 <= yearly_solved_len)%nat,
     "Solved 100+ problems this year") ].

(** The messages of the conditions that hold. *)
Definition true_messages (items : list (bool * string)) : list string :=
  snd <$> filter (fun cm => cm.1 = true) items.

(** The second [ts] falls in a year that [datetime] supports. *)
Definition supported_time (ts : Z) : Prop :=
  MINYEAR <= year_of (utc_day ts) <= MAXYEAR.

(** A profile that has never been rated. *)
Definition unrated : user :=
  {| rank := None; maxRank := None; rating := None |}.

(** Some character of [s] is an ASCII character that is neither a letter
    nor a digit: a space, a dash, a dot and the like. Such a character
    makes [str.isalnum] false whatever the other characters are. *)
Fixpoint has_ascii_non_alnum (s : string) : bool :=
  match s with
  | EmptyString => false
  | String c s' =>
      ((N_of_ascii c <? 128)%N && negb (ascii_isalnum c))
      || has_ascii_non_alnum s'
  end.

End Vocabulary.

(** ** Properties *)

Import Py PyFloat Datetime App Spec.

(** *** The error monad *)

Lemma bind_inr {A B} (m : M A) (k : A -> M B) (b : B) :
  bind m k = inr b -> exists a, m = inr a /\ k a = inr b.
Proof. destruct m as [e|a]; simpl; [discriminate | eauto]. Qed.

(** Each element of a successful [mapM] is the image of the element at
    the same position. *)
Lemma mapM_Forall2 {A B} (f : A -> M B) (l : list A) (bs : list B) :
  mapM f l = inr bs -> Forall2 (fun a b => f a = inr b) l bs.
Proof.
  revert bs. induction l as [|a l IH]; intros bs; simpl.
  - intros [= <-]. constructor.
  - intros H. apply bind_inr in H as (b & Hb & H).
    apply bind_inr in H as (bs' & Hbs & [= <-]).
    constructor; auto.
Qed.

(** *** A successful request, unfolded *)

Lemma error_response_not_success msg code d :
  error_response msg code = (jsonify d, 200) -> dict_get "error" d <> None.
Proof. intros [= <- _]. discriminate. Qed.

Lemma handle_exception_is_error e : is_error (answer (handle_exception e)).
Proof. destruct e; simpl; eexists _, _; reflexivity. Qed.

Lemma is_error_not_success o d : is_error (answer o) -> ~ success o d.
Proof.
  intros (msg & code & He) [Ha Hd]. rewrite He in Ha.
  by apply error_response_not_success in Ha.
Qed.

(** A request answered with a record went through every stage: a valid
    handle, four answers with status [OK], a profile for the user and
    for the reference user, and statistics computed without exception. *)
Lemma success_inv srv req up d :
  success (generate_wrapped srv req up) d ->
  exists name info stat rat tou user_data tourist_data top l,
    bind req (fun data => value_get data "username") = inr (VStr name)
    /\ isalnum name = true
    /\ user_info up = inr info /\ user_status up = inr stat
    /\ user_rating up = inr rat /\ tourist_info up = inr tou
    /\ head (result info) = Some user_data
    /\ head (result tou) = Some tourist_data
    /\ rating tourist_data = Some top
    /\ compute_locals srv user_data (result stat) (result rat) top = inr l
    /\ d = response_dict name l.
Proof.
  intros [Ha Hd]. unfold generate_wrapped in Ha.
  destruct (bind req _) as [e|username] eqn:Hreq.
  { destruct (handle_exception_is_error e) as (msg & code & He).
    rewrite He in Ha. by apply error_response_not_success in Ha. }
  destruct (truthy username); simpl in Ha;
    [|by apply error_response_not_success in Ha].
  destruct (as_str username) as [name|] eqn:Hstr;
    [|by apply error_response_not_success in Ha].
  destruct username; try discriminate. injection Hstr as ->.
  destruct (isalnum name) eqn:Halnum; simpl in Ha;
    [|by apply error_response_not_success in Ha].
  destruct (aggregate srv name up) as [e|r] eqn:Hagg; simpl in Ha;
    [by apply error_response_not_success in Ha|].
  subst r. unfold aggregate in Hagg.
  apply bind_inr in Hagg as (info & Hinfo & Hagg).
  apply bind_inr in Hagg as (stat & Hstat & Hagg).
  apply bind_inr in Hagg as (rat & Hrat & Hagg).
  apply bind_inr in Hagg as (tou & Htou & Hagg).
  case_bool_decide.
  { injection Hagg as <-. discriminate. }
  apply bind_inr in Hagg as (user_data & Hu & Hagg).
  apply bind_inr in Hagg as (tourist_data & Ht & Hagg).
  apply bind_inr in Hagg as (top & Htop & Hagg).
  apply bind_inr in Hagg as (l & Hl & Hagg).
  injection Hagg as <-.
  exists name, info, stat, rat, tou, user_data, tourist_data, top, l.
  repeat split; try done.
  - destruct (result info); [discriminate|]. by injection Hu as ->.
  - destruct (result tou); [discriminate|]. by injection Ht as ->.
  - by destruct (rating tourist_data); [injection Htop as ->|].
Qed.

(** The statistics behind a computed [locals]. *)
Lemma compute_locals_inv srv user_data submissions contests top l :
  compute_locals srv user_data submissions contests top = inr l ->
  exists days favorite improvement percentile months best,
    solved_days submissions = inr days
    /\ most_common_or_na (topics submissions) = inr favorite
    /\ rating_improvement (year_start (wall srv)) user_data contests
       = inr improvement
    /\ global_percentile user_data top = inr percentile
    /\ submission_months submissions = inr months
    /\ most_common_or_na months = inr best
    /\ l = {| l_current_rank := default "N/A" (rank user_data);
              l_max_rank := default "N/A" (maxRank user_data);
              l_total_solved := total_solved submissions;
              l_yearly_solved :=
                yearly_solved (year_start (wall srv)) submissions;
              l_longest_streak := longest_streak days;
              l_favorite_topic := favorite;
              l_highest_rank := highest_rank contests;
              l_contests_participated := length contests;
              l_rating_improvement := improvement;
              l_global_percentile := percentile;
              l_best_month := best;
              l_milestones :=
                milestones
                  (milestone_conditions (size (total_solved submissions))
                     (default "N/A" (rank user_data)) user_data
                     (length contests) (longest_streak days)
                     (size (yearly_solved (year_start (wall srv))
                              submissions))) |}.
Proof.
  unfold compute_locals. intros H.
  apply bind_inr in H as (days & Hdays & H).
  apply bind_inr in H as (favorite & Hfav & H).
  apply bind_inr in H as (improvement & Himp & H).
  apply bind_inr in H as (percentile & Hpct & H).
  apply bind_inr in H as (months & Hmonths & H).
  apply bind_inr in H as (best & Hbest & H).
  injection H as <-.
  exists days, favorite, improvement, percentile, months, best.
  repeat split; assumption.
Qed.

(** The record, key by key, in the order of the source. *)
Lemma response_dict_items username l :
  response_dict username l =
  [ ("username", VStr username);
    ("current_rank", VStr (l_current_rank l));
    ("highest_rank", l_highest_rank l);
    ("longest_streak", VInt (l_longest_streak l));
    ("problems_solved_this_year", VInt (Z.of_nat (size (l_yearly_solved l))));
    ("total_problems_solved", VInt (Z.of_nat (size (l_total_solved l))));
    ("favorite_topic", VStr (l_favorite_topic l));
    ("contests_participated", VInt (Z.of_nat (l_contests_participated l)));
    ("rating_improvement", VInt (l_rating_improvement l));
    ("best_month", VStr (l_best_month l));
    ("motivational_message", VStr "Keep pushing your limits!");
    ("global_percentile", VStr (l_global_percentile l)) ].
Proof. reflexivity. Qed.

(** *** Rating improvement *)

Lemma List_last_cons {A} (l : list A) (a b : A) :
  List.last (b :: l) a = List.last l b.
Proof.
  revert a b. induction l as [|c l IH]; intros a b; [reflexivity|].
  change (List.last (b :: c :: l) a) with (List.last (c :: l) a).
  by rewrite !IH.
Qed.

Lemma last_cons_default {A} (a : A) (l : list A) :
  last (a :: l) = Some (List.last l a).
Proof.
  revert a. induction l as [|b l IH]; intros a; [reflexivity|].
  change (last (a :: b :: l)) with (last (b :: l)).
  by rewrite IH, List_last_cons.
Qed.

(** [rating_improvement] never raises and computes the specified
    difference. *)
Lemma rating_improvement_total ys user_data contests :
  rating_improvement ys user_data contests
  = inr (rating_improvement_spec ys contests).
Proof.
  unfold rating_improvement, rating_improvement_spec, yearly_contests.
  destruct (filter _ contests) as [|c rest]; simpl.
  - unfold ret. f_equal. lia.
  - unfold item_last. rewrite last_cons_default. reflexivity.
Qed.

(** Relative to the boundary the code computes, [year_start] of the
    server's clock (local midnight of January 1), the field
    [rating_improvement] of every record is: over the contest results
    whose rating update is on or after that boundary, in their original
    order, the [newRating] of the last minus the [oldRating] of the
    first, and 0 when no contest result passes the filter. *)
Theorem rating_improvement_correct srv req up rat d :
  user_rating up = inr rat ->
  success (generate_wrapped srv req up) d ->
  dict_get "rating_improvement" d
  = Some (VInt (rating_improvement_spec (year_start (wall srv)) (result rat))).
Proof.
  intros Hrat Hok.
  apply success_inv in Hok
    as (name & info & stat & rat' & tou & u & t & top & l & _ & _ & _ & _
        & Hrat' & _ & _ & _ & _ & Hl & ->).
  rewrite Hrat in Hrat'. injection Hrat' as <-.
  apply compute_locals_inv in Hl
    as (days & fav & imp & pct & months & best & _ & _ & Himp & _ & _ & _ & ->).
  rewrite rating_improvement_total in Himp. injection Himp as <-.
  reflexivity.
Qed.

Lemma rating_improvement_correct_witness :
  dict_get "rating_improvement" (response_dict "alice" Samples.typical_locals)
  = Some (VInt (rating_improvement_spec (year_start (wall Samples.srv_utc))
                  Samples.ratings)).
Proof.
  apply (rating_improvement_correct Samples.srv_utc (Samples.post "alice")
           Samples.up_typical {| status := "OK"; result := Samples.ratings |}).
  - reflexivity.
  - split; vm_compute; reflexivity.
Defined.

(** *** Validation of the handle *)

(** C10. When the body carries a [username] that is present and truthy but
    is not a string, the handler answers 400 with "Invalid username
    format", submits no fetch and logs nothing: the aggregation never
    starts, whatever the upstream would have answered. *)
Theorem non_string_username_rejected srv body v up :
  dict_get "username" body = Some v ->
  truthy v = true ->
  as_str v = None ->
  generate_wrapped srv (inr (VDict body)) up
  = {| events := []; answer := error_response "Invalid username format" 400 |}.
Proof.
  intros Hget Htruthy Hstr. unfold generate_wrapped. simpl.
  rewrite Hget. simpl. rewrite Htruthy, Hstr. reflexivity.
Qed.

Lemma non_string_username_rejected_witness :
  generate_wrapped Samples.srv_utc
    (inr (VDict [("username", VList [VInt 42])])) Samples.up_typical
  = {| events := []; answer := error_response "Invalid username format" 400 |}.
Proof.
  apply (non_string_username_rejected Samples.srv_utc
           [("username", VList [VInt 42])] (VList [VInt 42]));
    reflexivity.
Defined.

(** *** Division by a zero reference rating *)

Lemma true_divide_zero a : true_divide a 0 = inl ZeroDivisionError.
Proof. reflexivity. Qed.

Lemma global_percentile_zero user_data r :
  rating user_data = Some r ->
  global_percentile user_data 0 = inl ZeroDivisionError.
Proof. unfold global_percentile. intros ->. reflexivity. Qed.

(** C5. When the profile carries a rating and the reference user's rating
    is 0, every request ends in a failure document: no record is
    returned, so no percentile, infinite or otherwise, is ever sent. *)
Theorem zero_reference_rating_is_error srv req up info tou user_data r tourist_data :
  user_info up = inr info -> head (result info) = Some user_data ->
  rating user_data = Some r ->
  tourist_info up = inr tou -> head (result tou) = Some tourist_data ->
  rating tourist_data = Some 0 ->
  is_error (answer (generate_wrapped srv req up))
  /\ forall d, ~ success (generate_wrapped srv req up) d.
Proof.
  intros Hinfo Hu Hr Htou Ht Htop.
  assert (He : is_error (answer (generate_wrapped srv req up))).
  { unfold generate_wrapped.
    destruct (bind req _) as [e|username]; [apply handle_exception_is_error|].
    destruct (truthy username); simpl; [|by eexists _, _].
    destruct (as_str username) as [name|]; [|by eexists _, _].
    destruct (isalnum name); simpl; [|by eexists _, _].
    destruct (aggregate srv name up) as [e|resp] eqn:Hagg; simpl;
      [by eexists _, _|].
    unfold aggregate in Hagg. rewrite Hinfo in Hagg. simpl in Hagg.
    apply bind_inr in Hagg as (stat & Hstat & Hagg).
    apply bind_inr in Hagg as (rat & Hrat & Hagg).
    rewrite Htou in Hagg. simpl in Hagg.
    case_bool_decide; [injection Hagg as <-; by eexists _, _|].
    destruct (result info) as [|u us]; [discriminate|].
    injection Hu as ->. simpl in Hagg.
    destruct (result tou) as [|t ts]; [discriminate|].
    injection Ht as ->. simpl in Hagg.
    rewrite Htop in Hagg. simpl in Hagg.
    apply bind_inr in Hagg as (l & Hl & _).
    apply compute_locals_inv in Hl
      as (? & ? & ? & ? & ? & ? & _ & _ & _ & Hpct & _).
    by rewrite (global_percentile_zero _ _ Hr) in Hpct. }
  split; [exact He|]. intros d. by apply is_error_not_success.
Qed.

Lemma zero_reference_rating_is_error_witness :
  is_error (answer (generate_wrapped Samples.srv_utc (Samples.post "alice")
                      Samples.up_zero_reference))
  /\ forall d, ~ success (generate_wrapped Samples.srv_utc (Samples.post "alice")
                            Samples.up_zero_reference) d.
Proof.
  apply (zero_reference_rating_is_error Samples.srv_utc (Samples.post "alice")
           Samples.up_zero_reference
           {| status := "OK"; result := [Samples.expert] |}
           {| status := "OK"; result := [Samples.tourist_unrated] |}
           Samples.expert 1500 Samples.tourist_unrated);
    reflexivity.
Defined.

(** *** Solved sets *)

Lemma yearly_solved_subseteq ys submissions :
  yearly_solved ys submissions ⊆ total_solved submissions.
Proof.
  unfold yearly_solved, total_solved. intros k.
  rewrite !elem_of_list_to_set, !list_elem_of_fmap.
  intros (sub & -> & Hin). exists sub. split; [done|].
  apply list_elem_of_filter in Hin as [[Hok _] Hin].
  by apply list_elem_of_filter.
Qed.

(** The two counts as the record reports them. *)
Lemma response_yearly_le_total srv req up d :
  success (generate_wrapped srv req up) d ->
  exists total yearly,
    dict_get "total_problems_solved" d = Some (VInt total)
    /\ dict_get "problems_solved_this_year" d = Some (VInt yearly)
    /\ yearly <= total.
Proof.
  intros Hok.
  apply success_inv in Hok
    as (name & ? & stat & ? & ? & ? & ? & ? & l & _ & _ & _ & _ & _ & _ & _ & _
        & _ & Hl & ->).
  apply compute_locals_inv in Hl as (? & ? & ? & ? & ? & ? & _ & _ & _ & _ & _ & _ & ->).
  eexists _, _. split; [reflexivity|]. split; [reflexivity|]. simpl.
  apply Nat2Z.inj_le, subseteq_size, yearly_solved_subseteq.
Qed.

(** C7. For every submission sequence and every year boundary, the number
    of problems solved this year is at most the number solved in total,
    the yearly set being a subset of the all-time set. *)
Theorem yearly_le_total ys submissions :
  yearly_solved ys submissions ⊆ total_solved submissions
  /\ (size (yearly_solved ys submissions) <= size (total_solved submissions))%nat.
Proof.
  split; [apply yearly_solved_subseteq|].
  apply subseteq_size, yearly_solved_subseteq.
Qed.

(** *** Problem keys and problem identities *)

Lemma append_nil_l (s : string) : "" +:+ s = s.
Proof. reflexivity. Qed.

Lemma append_cons (c : ascii) (s1 s2 : string) :
  String c s1 +:+ s2 = String c (s1 +:+ s2).
Proof. reflexivity. Qed.

Lemma append_nil_r (s : string) : s +:+ "" = s.
Proof. induction s as [|c s IH]; [done|]. by rewrite append_cons, IH. Qed.

Lemma append_assoc' (s1 s2 s3 : string) :
  (s1 +:+ s2) +:+ s3 = s1 +:+ (s2 +:+ s3).
Proof.
  induction s1 as [|c s1 IH]; [done|]. by rewrite !append_cons, IH.
Qed.

Lemma all_digits_app s1 s2 :
  all_digits (s1 +:+ s2) = all_digits s1 && all_digits s2.
Proof.
  induction s1 as [|c s1 IH]; [done|].
  rewrite append_cons. simpl. by rewrite IH, andb_assoc.
Qed.

Lemma pretty_N_char_digit x : is_digit (pretty_N_char x) = true.
Proof. unfold pretty_N_char. by repeat case_match. Qed.

(** The digits [pretty_N_go] puts in front of its accumulator. *)
Lemma pretty_N_go_digits x s :
  exists d, pretty_N_go x s = d +:+ s /\ all_digits d = true
            /\ ((0 < x)%N -> d <> "").
Proof.
  revert s. induction (N.lt_wf_0 x) as [x _ IH]; intros s.
  destruct (decide (x = 0%N)) as [->|Hx].
  { exists "". rewrite pretty_N_go_0. split; [done|]. split; [done|lia]. }
  rewrite pretty_N_go_step by lia.
  destruct (IH (x `div` 10)%N) with (s := String (pretty_N_char (x `mod` 10)) s)
    as (d & -> & Hd & _).
  { apply N.div_lt; lia. }
  exists (d +:+ String (pretty_N_char (x `mod` 10)) "").
  rewrite append_assoc', append_cons, append_nil_l. split; [done|]. split.
  - rewrite all_digits_app, Hd. simpl. by rewrite pretty_N_char_digit.
  - intros _. by destruct d.
Qed.

(** A printed integer is a run of digits, after a dash when negative. *)
Lemma pretty_Z_shape (z : Z) :
  exists d, all_digits d = true /\ d <> ""
            /\ (pretty z = d \/ pretty z = String "-" d).
Proof.
  assert (Hpos : forall p : positive,
             exists d, all_digits d = true /\ d <> "" /\ pretty p = d).
  { intros p. unfold pretty, pretty_positive, pretty, pretty_N.
    destruct (decide (N.pos p = 0%N)) as [|_]; [done|].
    destruct (pretty_N_go_digits (N.pos p) "") as (d & Hgo & Hd & Hne).
    exists d. rewrite Hgo, append_nil_r.
    split; [done|]. split; [by apply Hne|done]. }
  destruct z as [|p|p].
  - exists "0". split; [done|]. split; [done|by left].
  - destruct (Hpos p) as (d & ? & ? & ?). exists d. auto.
  - destruct (Hpos p) as (d & ? & ? & Hp). exists d.
    split; [done|]. split; [done|]. right.
    change (pretty (Z.neg p)) with ("-" +:+ pretty p).
    by rewrite Hp.
Qed.

Lemma dash_not_digit : is_digit "-" = false.
Proof. reflexivity. Qed.

(** Splitting at the first dash after a run of digits is unambiguous. *)
Lemma digits_dash_inj d1 d2 i1 i2 :
  all_digits d1 = true -> all_digits d2 = true ->
  d1 +:+ String "-" i1 = d2 +:+ String "-" i2 -> d1 = d2 /\ i1 = i2.
Proof.
  revert d2. induction d1 as [|c d1 IH]; intros [|c' d2];
    rewrite ?append_cons, ?append_nil_l; simpl.
  - by intros _ _ [= ->].
  - intros _ Hd [= <- _]. by rewrite dash_not_digit in Hd.
  - intros Hd _ [= -> _]. by rewrite dash_not_digit in Hd.
  - intros [_ H1]%andb_prop [_ H2]%andb_prop [= -> Heq].
    destruct (IH d2 H1 H2 Heq) as [-> ->]. done.
Qed.

(** Two submissions have the same key exactly when they are for the same
    problem. *)
Lemma problem_key_inj s1 s2 :
  problem_key s1 = problem_key s2 <-> identity s1 = identity s2.
Proof.
  unfold problem_key, identity. split; [|by intros [= -> ->]].
  destruct (pretty_Z_shape (contestId (sub_problem s1)))
    as (d1 & Hd1 & Hne1 & Hp1).
  destruct (pretty_Z_shape (contestId (sub_problem s2)))
    as (d2 & Hd2 & Hne2 & Hp2).
  intros Heq. change (?a +:+ "-" +:+ ?b) with (a +:+ String "-" b) in Heq.
  assert (pretty (contestId (sub_problem s1))
          = pretty (contestId (sub_problem s2))
          /\ index (sub_problem s1) = index (sub_problem s2)) as [Hc ->].
  { destruct Hp1 as [Hp1|Hp1], Hp2 as [Hp2|Hp2];
      rewrite Hp1, Hp2 in Heq |- *; rewrite ?append_cons in Heq.
    - destruct (digits_dash_inj _ _ _ _ Hd1 Hd2 Heq) as [-> ->]. done.
    - destruct d1 as [|c d1]; [done|]. rewrite append_cons in Heq.
      simpl in Hd1. injection Heq as -> _. by rewrite dash_not_digit in Hd1.
    - destruct d2 as [|c d2]; [done|]. rewrite append_cons in Heq.
      simpl in Hd2. injection Heq as <- _. by rewrite dash_not_digit in Hd2.
    - injection Heq as Heq.
      destruct (digits_dash_inj _ _ _ _ Hd1 Hd2 Heq) as [-> ->]. done. }
  by apply (inj pretty) in Hc as ->.
Qed.

Lemma elem_of_total_solved k submissions :
  k ∈ total_solved submissions
  <-> exists s, s ∈ submissions /\ accepted s /\ problem_key s = k.
Proof.
  unfold total_solved. rewrite elem_of_list_to_set, list_elem_of_fmap.
  split.
  - intros (s & -> & [Hok Hin]%list_elem_of_filter). eauto.
  - intros (s & Hin & Hok & <-). exists s. split; [done|].
    by apply list_elem_of_filter.
Qed.

Lemma elem_of_yearly_solved ys k submissions :
  k ∈ yearly_solved ys submissions
  <-> exists s, s ∈ submissions /\ accepted s /\ this_year ys s
                /\ problem_key s = k.
Proof.
  unfold yearly_solved. rewrite elem_of_list_to_set, list_elem_of_fmap.
  split.
  - intros (s & -> & [[Hok Hy] Hin]%list_elem_of_filter). eauto.
  - intros (s & Hin & Hok & Hy & <-). exists s. split; [done|].
    by apply list_elem_of_filter.
Qed.

(** A problem with an accepted submission adds exactly one to the number
    of solved problems, however many accepted submissions it has. *)
Lemma total_solved_once id submissions :
  (exists s, s ∈ submissions /\ accepted s /\ identity s = id) ->
  size (total_solved submissions)
  = S (size (total_solved (others id submissions))).
Proof.
  intros (s0 & Hin0 & Hok0 & Hid0).
  assert (Hnot : problem_key s0 ∉ total_solved (others id submissions)).
  { rewrite elem_of_total_solved.
    intros (s & [Hne _]%list_elem_of_filter & _ & Hk).
    apply problem_key_inj in Hk. congruence. }
  assert (Heq : total_solved submissions
                = {[ problem_key s0 ]} ∪ total_solved (others id submissions)).
  { apply set_eq. intros k.
    rewrite elem_of_union, elem_of_singleton, !elem_of_total_solved. split.
    - intros (s & Hin & Hok & <-).
      destruct (decide (identity s = id)) as [Hid|Hid].
      + left. apply problem_key_inj. congruence.
      + right. exists s. split; [by apply list_elem_of_filter|done].
    - intros [->|(s & [_ Hin]%list_elem_of_filter & Hok & <-)]; eauto. }
  rewrite Heq, size_union by (by apply disjoint_singleton_l).
  by rewrite size_singleton.
Qed.

Lemma yearly_solved_once ys id submissions :
  (exists s, s ∈ submissions /\ accepted s /\ this_year ys s
             /\ identity s = id) ->
  size (yearly_solved ys submissions)
  = S (size (yearly_solved ys (others id submissions))).
Proof.
  intros (s0 & Hin0 & Hok0 & Hy0 & Hid0).
  assert (Hnot : problem_key s0 ∉ yearly_solved ys (others id submissions)).
  { rewrite elem_of_yearly_solved.
    intros (s & [Hne _]%list_elem_of_filter & _ & _ & Hk).
    apply problem_key_inj in Hk. congruence. }
  assert (Heq : yearly_solved ys submissions
                = {[ problem_key s0 ]}
                  ∪ yearly_solved ys (others id submissions)).
  { apply set_eq. intros k.
    rewrite elem_of_union, elem_of_singleton, !elem_of_yearly_solved. split.
    - intros (s & Hin & Hok & Hy & <-).
      destruct (decide (identity s = id)) as [Hid|Hid].
      + left. apply problem_key_inj. congruence.
      + right. exists s. split; [by apply list_elem_of_filter|done].
    - intros [->|(s & [_ Hin]%list_elem_of_filter & Hok & Hy & <-)]; eauto 6. }
  rewrite Heq, size_union by (by apply disjoint_singleton_l).
  by rewrite size_singleton.
Qed.

(** *** Counters *)

Section dict_facts.
Context {K V : Type} `{EqDecision K}.

Lemma dict_get_set (k k' : K) (v : V) (d : list (K * V)) :
  dict_get k (dict_set k' v d)
  = if decide (k = k') then Some v else dict_get k d.
Proof.
  induction d as [|[k'' v''] d IH]; simpl.
  - by destruct (decide (k = k')).
  - destruct (decide (k' = k'')) as [->|Hne]; simpl.
    + by destruct (decide (k = k'')).
    + destruct (decide (k = k'')) as [->|]; [|done].
      by rewrite decide_False by done.
Qed.
End dict_facts.

Lemma tally_counter_incr c x k :
  tally (counter_incr c x) k
  = if decide (k = x) then S (tally c x) else tally c k.
Proof.
  unfold tally, counter_incr. rewrite dict_get_set.
  by destruct (decide (k = x)).
Qed.

Lemma tally_fold_counter l c k :
  tally (fold_left counter_incr l c) k = (tally c k + occurrences k l)%nat.
Proof.
  unfold occurrences. revert c.
  induction l as [|x l IH]; intros c; simpl; [lia|].
  rewrite IH, tally_counter_incr, filter_cons.
  destruct (decide (k = x)) as [->|Hne].
  - rewrite decide_True by done. simpl. lia.
  - rewrite decide_False by done. lia.
Qed.

(** A [Counter] holds, for each key, the number of its occurrences. *)
Lemma tally_Counter l k : tally (Counter l) k = occurrences k l.
Proof. unfold Counter. by rewrite tally_fold_counter. Qed.

Lemma occurrences_app k l1 l2 :
  occurrences k (l1 ++ l2) = (occurrences k l1 + occurrences k l2)%nat.
Proof. unfold occurrences. by rewrite filter_app, length_app. Qed.

(** Every accepted submission adds each of its tags to the tally. *)
Lemma tally_topics tag submissions :
  tally (Counter (topics submissions)) tag = accepted_with_tag tag submissions.
Proof.
  rewrite tally_Counter. unfold topics, accepted_with_tag.
  induction (filter accepted submissions) as [|s l IH]; [done|].
  rewrite bind_cons, occurrences_app, IH. done.
Qed.

(** Every accepted submission adds its month to the tally. *)
Lemma tally_months m submissions months :
  submission_months submissions = inr months ->
  tally (Counter months) m = accepted_in_month m submissions.
Proof.
  rewrite tally_Counter. unfold submission_months, accepted_in_month.
  intros H%mapM_Forall2. unfold occurrences.
  induction H as [|s x l months Hs _ IH]; [done|].
  rewrite !filter_cons, Hs.
  destruct (decide (x = m)) as [->|Hne].
  - rewrite decide_True by done. simpl. by rewrite IH.
  - rewrite decide_False by congruence. done.
Qed.

(** C8. When a problem has one or more accepted submissions it counts
    exactly once in the number of problems solved, and exactly once in
    the number solved this year when one of them is of this year, while
    the tallies behind the favorite topic and the best month count every
    accepted submission for itself. *)
Theorem duplicates_once_in_sets_each_in_tallies ys submissions id months :
  (exists s, s ∈ submissions /\ accepted s /\ identity s = id) ->
  submission_months submissions = inr months ->
  size (total_solved submissions)
  = S (size (total_solved (others id submissions)))
  /\ ((exists s, s ∈ submissions /\ accepted s /\ this_year ys s
                 /\ identity s = id) ->
      size (yearly_solved ys submissions)
      = S (size (yearly_solved ys (others id submissions))))
  /\ (forall tag,
        tally (Counter (topics submissions)) tag
        = accepted_with_tag tag submissions)
  /\ (forall m, tally (Counter months) m = accepted_in_month m submissions).
Proof.
  intros Hid Hmonths. split; [by apply total_solved_once|].
  split; [by apply yearly_solved_once|]. split.
  - intros tag. apply tally_topics.
  - intros m. by apply tally_months.
Qed.

Lemma duplicates_once_in_sets_each_in_tallies_witness :
  size (total_solved Samples.history)
  = S (size (total_solved (others (1, "A") Samples.history)))
  /\ ((exists s, s ∈ Samples.history /\ accepted s
                 /\ this_year Samples.jan1_2024 s /\ identity s = (1, "A")) ->
      size (yearly_solved Samples.jan1_2024 Samples.history)
      = S (size (yearly_solved Samples.jan1_2024
                   (others (1, "A") Samples.history))))
  /\ (forall tag,
        tally (Counter (topics Samples.history)) tag
        = accepted_with_tag tag Samples.history)
  /\ (forall m,
        tally (Counter ["January"; "January"; "January"; "January"; "February"]) m
        = accepted_in_month m Samples.history).
Proof.
  apply (duplicates_once_in_sets_each_in_tallies Samples.jan1_2024
           Samples.history (1, "A")
           ["January"; "January"; "January"; "January"; "February"]).
  - exists (Samples.sub 1 "A" ["dp"] "OK" (Samples.jan1_2024 + 86400)).
    split; [|split; reflexivity].
    apply list_elem_of_In. simpl. right. left. reflexivity.
  - vm_compute. reflexivity.
Defined.

(** *** The keys of the record *)

(** Every record the handler returns has the same twelve keys; neither
    [max_rank] nor [milestones] is among them. *)
Lemma success_keys srv req up d :
  success (generate_wrapped srv req up) d ->
  dict_keys d =
  [ "username"; "current_rank"; "highest_rank"; "longest_streak";
    "problems_solved_this_year"; "total_problems_solved"; "favorite_topic";
    "contests_participated"; "rating_improvement"; "best_month";
    "motivational_message"; "global_percentile" ].
Proof.
  intros Hok.
  apply success_inv in Hok
    as (name & ? & ? & ? & ? & ? & ? & ? & l & _ & _ & _ & _ & _ & _ & _ & _
        & _ & _ & ->).
  reflexivity.
Qed.

(** C1. The request of [Samples.up_typical] is answered with a record,
    and of the keys the specification lists the record lacks [max_rank]
    and [milestones]: both are computed and neither is put in the
    [response] dictionary. *)
Theorem record_lacks_max_rank_and_milestones :
  success
    (generate_wrapped Samples.srv_utc (Samples.post "alice") Samples.up_typical)
    (response_dict "alice" Samples.typical_locals)
  /\ filter (fun k => k ∉ dict_keys (response_dict "alice" Samples.typical_locals))
       specified_keys
     = ["max_rank"; "milestones"].
Proof. split; [split|]; vm_compute; reflexivity. Qed.

(** *** The longest streak *)

(** The loop keeps [current_streak] at 1 or more, so the final
    [max(longest_streak, current_streak)] is never 0. *)
Lemma streak_loop_current days longest current :
  1 <= current -> 1 <= (streak_loop days longest current).2.
Proof.
  revert longest current.
  induction days as [|prev days IH]; intros longest current Hc; [done|].
  destruct days as [|next days]; [done|].
  change (streak_loop (prev :: next :: days) longest current)
    with (if decide (next = prev + 1)
          then streak_loop (next :: days) longest (current + 1)
          else streak_loop (next :: days) (Z.max longest current) 1).
  destruct (decide (next = prev + 1)); apply IH; lia.
Qed.

Lemma longest_streak_positive days : 1 <= longest_streak days.
Proof.
  unfold longest_streak.
  pose proof (streak_loop_current days 0 1 ltac:(lia)) as H.
  destruct (streak_loop days 0 1) as [longest current]. simpl in H. lia.
Qed.

(** Without an accepted submission the statistics are computed, and the
    streak comes out as 1. *)
Lemma compute_locals_no_accepted srv user_data submissions contests top l :
  filter accepted submissions = [] ->
  compute_locals srv user_data submissions contests top = inr l ->
  l_longest_streak l = 1
  /\ l_favorite_topic l = "N/A" /\ l_best_month l = "N/A"
  /\ size (l_total_solved l) = 0%nat /\ size (l_yearly_solved l) = 0%nat.
Proof.
  intros Hnone Hl.
  apply compute_locals_inv in Hl
    as (days & fav & imp & pct & months & best
        & Hdays & Hfav & _ & _ & Hmonths & Hbest & ->).
  simpl.
  unfold solved_days in Hdays. rewrite Hnone in Hdays.
  injection Hdays as <-.
  unfold topics in Hfav. rewrite Hnone in Hfav. injection Hfav as <-.
  unfold submission_months in Hmonths. rewrite Hnone in Hmonths.
  injection Hmonths as <-. injection Hbest as <-.
  assert (Hy : filter (fun sub => accepted sub /\ this_year (year_start (wall srv)) sub)
                 submissions = []).
  { apply elem_of_nil_inv. intros s [[Hok _] Hin]%list_elem_of_filter.
    by apply (filter_nil_not_elem_of accepted submissions s). }
  unfold total_solved, yearly_solved. rewrite Hnone, Hy.
  repeat split; reflexivity.
Qed.

(** C2. For a user with no submission at all the handler returns a
    record whose [longest_streak] is 1, not 0; the other four fields are
    as specified: favorite topic and best month "N/A", both solved
    counts 0. *)
Theorem no_accepted_submission_streak_is_one :
  exists d,
    success
      (generate_wrapped Samples.srv_utc (Samples.post "alice") Samples.up_empty) d
    /\ dict_get "longest_streak" d = Some (VInt 1)
    /\ dict_get "favorite_topic" d = Some (VStr "N/A")
    /\ dict_get "best_month" d = Some (VStr "N/A")
    /\ dict_get "total_problems_solved" d = Some (VInt 0)
    /\ dict_get "problems_solved_this_year" d = Some (VInt 0).
Proof.
  eexists. split; [split; [vm_compute; reflexivity|reflexivity]|].
  repeat split; reflexivity.
Qed.

(** *** Milestones *)

(** A dictionary keyed by booleans holds one entry per truth value, so at
    most one message survives the collection, whatever the conditions. *)
Lemma dict_set_keys {K V} `{EqDecision K} (k : K) (v : V) (d : list (K * V)) :
  NoDup (dict_keys d) -> NoDup (dict_keys (dict_set k v d)).
Proof.
  unfold dict_keys. induction d as [|[k' v'] d IH]; simpl.
  - intros _. apply NoDup_singleton.
  - intros [Hnotin Hnd]%NoDup_cons.
    destruct (decide (k = k')) as [->|Hne]; simpl.
    + by apply NoDup_cons.
    + apply NoDup_cons. split; [|by apply IH].
      clear IH Hnd. induction d as [|[k'' v''] d IH]; simpl in *.
      * apply not_elem_of_cons. split; [done|apply not_elem_of_nil].
      * apply not_elem_of_cons in Hnotin as [Hne' Hnotin].
        destruct (decide (k = k'')); simpl;
          apply not_elem_of_cons; auto.
Qed.

Lemma dict_display_keys {K V} `{EqDecision K} (items : list (K * V)) :
  NoDup (dict_keys (dict_display items)).
Proof.
  unfold dict_display.
  assert (H : NoDup (dict_keys ([] : list (K * V)))) by apply NoDup_nil_2.
  revert H. generalize ([] : list (K * V)).
  induction items as [|[k v] items IH]; intros d Hd; simpl; [done|].
  by apply IH, dict_set_keys.
Qed.

Lemma milestone_conditions_keys total current_rank user_data participated
    streak yearly :
  NoDup (dict_keys (milestone_conditions total current_rank user_data
                      participated streak yearly)).
Proof. apply dict_display_keys. Qed.

Lemma milestones_length d :
  NoDup (dict_keys d) -> (length (milestones d) <= 1)%nat.
Proof.
  unfold milestones, dict_keys. rewrite length_fmap.
  induction d as [|[k v] d IH]; simpl; [lia|].
  intros [Hnotin Hnd]%NoDup_cons. rewrite filter_cons. simpl.
  destruct (decide (k = true)) as [->|Hk]; [|by apply IH].
  assert (Hnil : filter (fun cm : bool * string => cm.1 = true) d = []).
  { apply elem_of_nil_inv. intros [k v'] [Hk Hin]%list_elem_of_filter.
    simpl in Hk. subst k. apply Hnotin.
    apply list_elem_of_fmap. by exists (true, v'). }
  rewrite Hnil. simpl. lia.
Qed.

Lemma milestones_at_most_one total current_rank user_data participated
    streak yearly :
  (length (milestones
             (milestone_conditions total current_rank user_data participated
                streak yearly)) <= 1)%nat.
Proof. apply milestones_length, milestone_conditions_keys. Qed.

(** Whenever the first two conditions hold and the other four fail, only
    the second message is collected. *)
Lemma milestones_500_grandmaster total current_rank user_data participated
    streak yearly :
  (500 <= total)%nat ->
  current_rank ∈ ["grandmaster"; "legendary grandmaster"] ->
  default 0 (rating user_data) < 3000 ->
  (participated < 10)%nat -> streak < 7 -> (yearly < 100)%nat ->
  milestones (milestone_conditions total current_rank user_data participated
                streak yearly)
  = ["Achieved Grandmaster rank"].
Proof.
  intros. unfold milestone_conditions.
  rewrite !bool_decide_eq_true_2 by done.
  rewrite !bool_decide_eq_false_2 by lia.
  reflexivity.
Qed.

(** The sample history [Samples.solved n]: [n] accepted submissions for
    the problems [1-A] to [n-A], all at the epoch. *)
Section solved_sample.
Import Samples.

Lemma elem_of_solved s n :
  s ∈ solved n ->
  exists k, (1 <= k <= n)%nat /\ s = sub (Z.of_nat k) "A" [] "OK" 0.
Proof.
  induction n as [|n IH]; simpl.
  - by intros ?%not_elem_of_nil.
  - intros [->|Hin]%elem_of_cons.
    + exists (S n). split; [lia|done].
    + destruct (IH Hin) as (k & Hk & ->). exists k. split; [lia|done].
Qed.

Lemma solved_accepted n : filter accepted (solved n) = solved n.
Proof.
  induction n as [|n IH]; [done|].
  simpl. rewrite filter_cons, decide_True by done. by rewrite IH.
Qed.

Lemma total_solved_cons s submissions :
  accepted s ->
  total_solved (s :: submissions)
  = {[ problem_key s ]} ∪ total_solved submissions.
Proof.
  intros Hok. unfold total_solved. by rewrite filter_cons, decide_True.
Qed.

Lemma total_solved_solved n : size (total_solved (solved n)) = n.
Proof.
  induction n as [|n IH]; [done|].
  change (solved (S n)) with (sub (Z.of_nat (S n)) "A" [] "OK" 0 :: solved n).
  rewrite total_solved_cons by done.
  rewrite size_union, size_singleton, IH; [done|].
  apply disjoint_singleton_l. rewrite elem_of_total_solved.
  intros (s & (k & Hk & ->)%elem_of_solved & _ & Hkey).
  apply problem_key_inj in Hkey. injection Hkey as Hkey. lia.
Qed.

Lemma yearly_solved_solved ys n : 0 < ys -> yearly_solved ys (solved n) = ∅.
Proof.
  intros Hys. unfold yearly_solved.
  replace (filter _ (solved n)) with ([] : list submission); [done|].
  symmetry. apply elem_of_nil_inv.
  intros s [[_ Hy] (k & _ & ->)%elem_of_solved]%list_elem_of_filter.
  unfold this_year in Hy. simpl in Hy. lia.
Qed.

Lemma mapM_solved {B} (f : submission -> M B) (b : B) n :
  (forall k, f (sub k "A" [] "OK" 0) = inr b) ->
  mapM f (solved n) = inr (replicate n b).
Proof.
  intros Hf. induction n as [|n IH]; [done|].
  simpl. rewrite Hf. simpl. rewrite IH. done.
Qed.

Lemma list_to_set_replicate (x : Z) n :
  list_to_set (replicate (S n) x) =@{gset Z} {[ x ]}.
Proof.
  induction n as [|n IH]; simpl in *.
  - apply (right_id_L ∅ (∪)).
  - rewrite IH. apply (idemp_L (∪)).
Qed.

Lemma solved_days_solved n : solved_days (solved (S n)) = inr [0].
Proof.
  unfold solved_days. rewrite solved_accepted.
  rewrite (mapM_solved _ 0) by done.
  cbn [bind]. rewrite list_to_set_replicate, elements_singleton. done.
Qed.

Lemma topics_solved n : topics (solved n) = [].
Proof.
  unfold topics. rewrite solved_accepted.
  induction n as [|n IH]; [done|]. exact IH.
Qed.

Lemma submission_months_solved n :
  submission_months (solved n) = inr (replicate n "January").
Proof.
  unfold submission_months. rewrite solved_accepted.
  by apply mapM_solved.
Qed.

Lemma fold_counter_replicate x n k :
  fold_left counter_incr (replicate n x) [(x, k)] = [(x, (k + n)%nat)].
Proof.
  revert k. induction n as [|n IH]; intros k; simpl.
  - by rewrite Nat.add_0_r.
  - unfold counter_incr at 2. simpl. rewrite !decide_True by done. simpl.
    rewrite IH. do 2 f_equal. lia.
Qed.

Lemma most_common_replicate x n :
  most_common_or_na (replicate (S n) x) = inr x.
Proof.
  unfold most_common_or_na, Counter. simpl.
  change (counter_incr [] x) with [(x, 1%nat)].
  by rewrite fold_counter_replicate.
Qed.

(** The statistics of a user with [n + 1] such submissions and no
    contest, in a year that starts after the epoch. *)
Lemma compute_locals_solved srv user_data top percentile n :
  0 < year_start (wall srv) ->
  global_percentile user_data top = inr percentile ->
  compute_locals srv user_data (solved (S n)) [] top
  = inr {| l_current_rank := default "N/A" (rank user_data);
           l_max_rank := default "N/A" (maxRank user_data);
           l_total_solved := total_solved (solved (S n));
           l_yearly_solved := ∅;
           l_longest_streak := 1;
           l_favorite_topic := "N/A";
           l_highest_rank := VStr "N/A";
           l_contests_participated := 0;
           l_rating_improvement := 0;
           l_global_percentile := percentile;
           l_best_month := "January";
           l_milestones :=
             milestones
               (milestone_conditions (S n) (default "N/A" (rank user_data))
                  user_data 0 1 0) |}.
Proof.
  intros Hys Hpct. unfold compute_locals.
  rewrite solved_days_solved, topics_solved, rating_improvement_total, Hpct,
    submission_months_solved, yearly_solved_solved, total_solved_solved
    by done.
  cbn [bind most_common_or_na ret]. rewrite most_common_replicate.
  reflexivity.
Qed.

End solved_sample.

(** A request with a valid handle whose four fetches succeed with status
    [OK] is answered with the record of the computed statistics. *)
Lemma generate_wrapped_ok srv name user_data submissions contests
    tourist_data top l :
  isalnum name = true ->
  rating tourist_data = Some top ->
  compute_locals srv user_data submissions contests top = inr l ->
  generate_wrapped srv (Samples.post name)
    {| user_info := Samples.ok [user_data];
       user_status := Samples.ok submissions;
       user_rating := Samples.ok contests;
       tourist_info := Samples.ok [tourist_data] |}
  = {| events := submits srv name;
       answer := (jsonify (response_dict name l), 200) |}.
Proof.
  intros Halnum Htop Hl. destruct name as [|c name]; [discriminate|].
  unfold generate_wrapped, Samples.post.
  cbn -[isalnum aggregate submits].
  rewrite decide_True by done. cbn -[isalnum aggregate submits].
  rewrite Halnum. cbn -[aggregate submits].
  unfold aggregate, Samples.ok.
  cbn -[compute_locals response_dict submits bool_decide].
  rewrite bool_decide_eq_false_2.
  - rewrite Htop. cbn -[compute_locals response_dict submits].
    rewrite Hl. reflexivity.
  - rewrite !Exists_cons, Exists_nil. intros [H|[H|[H|[H|[]]]]]; by apply H.
Qed.

(** C3. For a grandmaster (rating 2500) with exactly 500 problems
    solved, no contest, a streak of one day and nothing solved this year,
    the collected milestones are the single message "Achieved Grandmaster
    rank": "Solved 500+ problems" is lost, its entry being overwritten
    under the key [True]. The record sent back has no [milestones] field
    either. *)
Theorem milestones_of_grandmaster_with_500 :
  (l <- compute_locals Samples.srv_utc Samples.grandmaster
          (Samples.solved 500) [] 3000 ;;
   ret (milestone_inputs l, l_milestones l))
  = inr ((500%nat, "grandmaster", 0%nat, 1, 0%nat),
         ["Achieved Grandmaster rank"])
  /\ answer (generate_wrapped Samples.srv_utc (Samples.post "alice")
               Samples.up_grandmaster)
     = (jsonify
          [ ("username", VStr "alice");
            ("current_rank", VStr "grandmaster");
            ("highest_rank", VStr "N/A");
            ("longest_streak", VInt 1);
            ("problems_solved_this_year", VInt 0);
            ("total_problems_solved", VInt 500);
            ("favorite_topic", VStr "N/A");
            ("contests_participated", VInt 0);
            ("rating_improvement", VInt 0);
            ("best_month", VStr "January");
            ("motivational_message", VStr "Keep pushing your limits!");
            ("global_percentile", VStr "Top 83.33%") ],
        200).
Proof.
  pose proof (compute_locals_solved Samples.srv_utc Samples.grandmaster 3000
                "Top 83.33%" 499 eq_refl eq_refl) as Hl.
  split.
  - rewrite Hl. cbn [bind ret]. unfold milestone_inputs.
    cbn [l_total_solved l_current_rank l_contests_participated
         l_longest_streak l_yearly_solved l_milestones].
    rewrite total_solved_solved. reflexivity.
  - unfold Samples.up_grandmaster.
    rewrite (generate_wrapped_ok Samples.srv_utc "alice" _ _ _ Samples.tourist
               3000 _ eq_refl eq_refl Hl).
    cbn [answer]. rewrite response_dict_items.
    cbn [l_total_solved l_current_rank l_contests_participated
         l_longest_streak l_yearly_solved l_milestones l_highest_rank
         l_favorite_topic l_rating_improvement l_best_month
         l_global_percentile].
    rewrite total_solved_solved. reflexivity.
Qed.

(** *** The year boundary *)

(** On a server whose zone is UTC the boundary is the UTC start of the
    current year. *)
Lemma year_start_utc c : utcoffset c = 0 -> year_start c = utc_year_start c.
Proof.
  unfold year_start, utc_year_start, naive_timestamp, utc_timestamp,
    local_year, utc_year.
  intros ->. rewrite Z.add_0_r. lia.
Qed.

(** With any other zone the boundary is displaced by the zone's offset
    whenever the local and the UTC calendar agree on the year. *)
Lemma year_start_offset c :
  local_year c = utc_year c -> year_start c = utc_year_start c - utcoffset c.
Proof.
  unfold year_start, utc_year_start, naive_timestamp, utc_timestamp.
  by intros ->.
Qed.

(** C4. On a server at UTC+05:30, in July 2024, the boundary is
    2023-12-31 18:30:00 UTC, five and a half hours before the UTC start
    of 2024; a problem accepted at 2023-12-31 20:00:00 UTC lies before
    the UTC start of the year and is counted as solved this year all the
    same. *)
Theorem year_start_is_local_midnight :
  year_start (wall Samples.srv_ist) = 1704047400
  /\ utc_year_start (wall Samples.srv_ist) = 1704067200
  /\ creationTimeSeconds Samples.new_years_eve
     < utc_year_start (wall Samples.srv_ist)
  /\ this_year (year_start (wall Samples.srv_ist)) Samples.new_years_eve
  /\ (exists d,
        success (generate_wrapped Samples.srv_ist (Samples.post "alice")
                   Samples.up_new_years_eve) d
        /\ dict_get "problems_solved_this_year" d = Some (VInt 1)).
Proof.
  split; [reflexivity|]. split; [reflexivity|]. split; [reflexivity|].
  split; [by vm_compute|].
  eexists. split; [split; [vm_compute; reflexivity|reflexivity]|reflexivity].
Qed.

(** On a server whose zone is UTC the rating improvement is the
    specified difference over the contest results on or after the UTC
    start of the year. *)
Lemma rating_improvement_correct_on_utc_server srv req up rat d :
  utcoffset (wall srv) = 0 ->
  user_rating up = inr rat ->
  success (generate_wrapped srv req up) d ->
  dict_get "rating_improvement" d
  = Some (VInt (rating_improvement_spec (utc_year_start (wall srv))
                  (result rat))).
Proof.
  intros Hutc Hrat Hok. rewrite <-(year_start_utc _ Hutc).
  by apply (rating_improvement_correct srv req up).
Qed.

(** C6. On a server at UTC+05:30, in July 2024, a user whose only
    contest result has its rating update at 2023-12-31 20:00:00 UTC,
    from 1450 to 1500, gets [rating_improvement] 50: the result is after
    the boundary the code uses, local midnight, although it lies before
    the UTC start of 2024, over which the specified difference is 0. *)
Theorem rating_improvement_uses_local_midnight :
  ratingUpdateTimeSeconds Samples.late_contest
  < utc_year_start (wall Samples.srv_ist)
  /\ rating_improvement_spec (utc_year_start (wall Samples.srv_ist))
       [Samples.late_contest] = 0
  /\ rating_improvement_spec (year_start (wall Samples.srv_ist))
       [Samples.late_contest] = 50
  /\ (exists d,
        success (generate_wrapped Samples.srv_ist (Samples.post "alice")
                   Samples.up_late_contest) d
        /\ dict_get "rating_improvement" d = Some (VInt 50)).
Proof.
  split; [reflexivity|]. split; [by vm_compute|]. split; [by vm_compute|].
  eexists. split; [split; [vm_compute; reflexivity|reflexivity]|reflexivity].
Qed.

(** *** Exceptions inside the [try] block *)

(** Whatever is raised while aggregating is sent to the caller verbatim,
    as [str(e)], and logged. *)
Lemma aggregate_exception_echoed srv name up e :
  isalnum name = true ->
  aggregate srv name up = inl e ->
  generate_wrapped srv (inr (VDict [("username", VStr name)])) up
  = {| events := submits srv name
                 ++ [LogError ("Exception in generate_wrapped: " +:+ str_exn e)];
       answer := error_response (str_exn e) 500 |}.
Proof.
  intros Halnum Hagg. destruct name as [|c name]; [discriminate|].
  unfold generate_wrapped. cbn -[isalnum aggregate submits].
  rewrite decide_True by done. cbn -[isalnum aggregate submits].
  rewrite Halnum. cbn -[aggregate submits]. by rewrite Hagg.
Qed.

(** C9. A division by zero while aggregating is neither a validation
    error nor an upstream status error; the caller receives the
    exception's own text, "division by zero", where the application-wide
    handler would have answered with the generic "An unexpected error
    occurred". *)
Theorem internal_exception_text_is_returned :
  generate_wrapped Samples.srv_utc (Samples.post "alice")
    Samples.up_zero_reference
  = {| events :=
         submits Samples.srv_utc "alice"
         ++ [LogError "Exception in generate_wrapped: division by zero"];
       answer := error_response "division by zero" 500 |}
  /\ answer (handle_exception ZeroDivisionError)
     = error_response "An unexpected error occurred" 500.
Proof. split; vm_compute; reflexivity. Qed.

(** ** Further properties of the route *)

Import Vocabulary.

(** *** The validation gate and what follows it *)

Lemma truthy_alnum name : isalnum name = true -> truthy (VStr name) = true.
Proof. by destruct name. Qed.

(** The route on a decoded object body, stage by stage. *)
Lemma generate_wrapped_dict srv body up :
  generate_wrapped srv (inr (VDict body)) up
  = let username := default VNone (dict_get "username" body) in
    if negb (truthy username)
    then {| events := []; answer := error_response "Username is required" 400 |}
    else
      match as_str username with
      | None =>
          {| events := [];
             answer := error_response "Invalid username format" 400 |}
      | Some name =>
          if negb (isalnum name)
          then {| events := [];
                  answer := error_response "Invalid username format" 400 |}
          else
            match aggregate srv name up with
            | inr r => {| events := submits srv name; answer := r |}
            | inl e =>
                {| events :=
                     submits srv name ++
                     [LogError ("Exception in generate_wrapped: " +:+ str_exn e)];
                   answer := error_response (str_exn e) 500 |}
            end
      end.
Proof. reflexivity. Qed.

Lemma has_ascii_non_alnum_not_alnum name :
  has_ascii_non_alnum name = true -> isalnum name = false.
Proof.
  assert (Hall : forall s, has_ascii_non_alnum s = true -> all_alnum s = false).
  { induction s as [|c s IH]; simpl; [discriminate|].
    intros [[_ Hc]%andb_prop|Hs]%orb_prop.
    - apply negb_true_iff in Hc. by rewrite Hc.
    - rewrite (IH Hs). apply andb_false_r. }
  destruct name as [|c name]; [done|]. apply Hall.
Qed.

(** X1. A body without a usable handle never reaches the upstream API.
    When [username] is absent, is not a string, is the empty string, or
    is a string with an ASCII character that is neither a letter nor a
    digit, no fetch is submitted, nothing is logged, and the answer is a
    400, "Username is required" for an absent or falsy value and "Invalid
    username format" otherwise. (For a handle of letters, digits and
    characters beyond ASCII the Unicode database decides; nothing is
    stated about it.) *)
Theorem invalid_handle_stops_at_the_gate srv body up :
  (forall name, dict_get "username" body = Some (VStr name) ->
                name = "" \/ has_ascii_non_alnum name = true) ->
  events (generate_wrapped srv (inr (VDict body)) up) = []
  /\ answer (generate_wrapped srv (inr (VDict body)) up)
     = error_response
         (if truthy (default VNone (dict_get "username" body))
          then "Invalid username format" else "Username is required")
         400.
Proof.
  intros Hbad. rewrite generate_wrapped_dict. cbv zeta.
  destruct (dict_get "username" body) as [v|] eqn:Hget; simpl; [|done].
  destruct (truthy v) eqn:Htruthy; simpl; [|done].
  destruct v; simpl; try done.
  destruct (Hbad _ eq_refl) as [->|Hs]; [done|].
  by rewrite (has_ascii_non_alnum_not_alnum _ Hs).
Qed.

Lemma invalid_handle_stops_at_the_gate_witness :
  events (generate_wrapped Samples.srv_utc
            (inr (VDict [("username", VStr "john doe")])) Samples.up_typical)
  = []
  /\ answer (generate_wrapped Samples.srv_utc
               (inr (VDict [("username", VStr "john doe")])) Samples.up_typical)
     = error_response
         (if truthy (default VNone
                       (dict_get "username" [("username", VStr "john doe")]))
          then "Invalid username format" else "Username is required")
         400.
Proof.
  apply (invalid_handle_stops_at_the_gate Samples.srv_utc
           [("username", VStr "john doe")] Samples.up_typical).
  intros name [= <-]. right. reflexivity.
Defined.

(** X2. With a handle of letters and digits the four fetches are always
    submitted, in the same order and before anything else: [user.info],
    [user.status] and [user.rating] for the handle, then [user.info] for
    [tourist]. The only other effect is one log line, written exactly when
    the answer is the text of an exception; the status is then 500, and
    the answer is never a 400. *)
Theorem valid_handle_submits_four_fetches srv body name up :
  dict_get "username" body = Some (VStr name) ->
  isalnum name = true ->
  let o := generate_wrapped srv (inr (VDict body)) up in
  (exists r, aggregate srv name up = inr r
             /\ events o = submits srv name /\ answer o = r
             /\ (r.2 = 200 \/ r.2 = 500))
  \/ (exists e, aggregate srv name up = inl e
                /\ events o
                   = (submits srv name
                      ++ [LogError ("Exception in generate_wrapped: "
                                    +:+ str_exn e)])%list
                /\ answer o = error_response (str_exn e) 500).
Proof.
  intros Hget Halnum o. subst o. rewrite generate_wrapped_dict. cbv zeta.
  rewrite Hget. change (default VNone (Some (VStr name))) with (VStr name).
  rewrite (truthy_alnum _ Halnum). cbn [negb as_str]. rewrite Halnum.
  cbn [negb].
  destruct (aggregate srv name up) as [e|r] eqn:Hagg; [right; eauto|].
  left. exists r. repeat split; try done.
  unfold aggregate in Hagg.
  repeat (apply bind_inr in Hagg as (? & _ & Hagg)).
  case_bool_decide; [injection Hagg as <-; by right|].
  repeat (apply bind_inr in Hagg as (? & _ & Hagg)).
  injection Hagg as <-. by left.
Qed.

Lemma valid_handle_submits_four_fetches_witness :
  let o := generate_wrapped Samples.srv_utc
             (inr (VDict [("username", VStr "alice")]))
             Samples.up_zero_reference in
  (exists r, aggregate Samples.srv_utc "alice" Samples.up_zero_reference = inr r
             /\ events o = submits Samples.srv_utc "alice" /\ answer o = r
             /\ (r.2 = 200 \/ r.2 = 500))
  \/ (exists e, aggregate Samples.srv_utc "alice" Samples.up_zero_reference
                = inl e
                /\ events o
                   = (submits Samples.srv_utc "alice"
                      ++ [LogError ("Exception in generate_wrapped: "
                                    +:+ str_exn e)])%list
                /\ answer o = error_response (str_exn e) 500).
Proof.
  apply (valid_handle_submits_four_fetches Samples.srv_utc
           [("username", VStr "alice")] "alice" Samples.up_zero_reference);
    reflexivity.
Defined.

(** X3. A body that decodes to anything but an object (a list, a string,
    a number, [null]) makes [data.get] raise outside the [try] block; the
    application-wide handler answers 500 with the generic message, the
    exception's text goes to the log only, and no fetch is submitted. *)
Theorem non_object_body_is_a_generic_500 srv data up :
  (forall d, data <> VDict d) ->
  generate_wrapped srv (inr data) up
  = {| events :=
         [LogError ("An error occurred: '" +:+ type_name data
                    +:+ "' object has no attribute 'get'")];
       answer := error_response "An unexpected error occurred" 500 |}.
Proof.
  intros Hnot. destruct data; try reflexivity. by destruct (Hnot d).
Qed.

Lemma non_object_body_is_a_generic_500_witness :
  generate_wrapped Samples.srv_utc (inr (VList [VStr "alice"]))
    Samples.up_typical
  = {| events :=
         [LogError ("An error occurred: '" +:+ type_name (VList [VStr "alice"])
                    +:+ "' object has no attribute 'get'")];
       answer := error_response "An unexpected error occurred" 500 |}.
Proof.
  apply (non_object_body_is_a_generic_500 Samples.srv_utc
           (VList [VStr "alice"]) Samples.up_typical).
  intros d. discriminate.
Defined.

(** *** Upstream failures *)

Lemma aggregate_fetched srv name up info stat rat tou :
  fetched up info stat rat tou ->
  aggregate srv name up
  = if bool_decide (Exists (fun s => s <> "OK")
                      [status info; status stat; status rat; status tou])
    then ret (error_response "Failed to fetch data from Codeforces API" 500)
    else
      user_data <- item0 (result info) ;;
      tourist_data <- item0 (result tou) ;;
      top <- field "rating" (rating tourist_data) ;;
      l <- compute_locals srv user_data (result stat) (result rat) top ;;
      ret (jsonify (response_dict name l), 200).
Proof.
  intros (Hinfo & Hstat & Hrat & Htou). unfold aggregate.
  by rewrite Hinfo, Hstat, Hrat, Htou.
Qed.

(** X4. When the four fetches return and one of them reports a status
    other than [OK], the answer is 500 "Failed to fetch data from
    Codeforces API": the results are not looked at, no statistic is
    computed and nothing is logged. *)
Theorem failed_status_aborts srv name up info stat rat tou :
  isalnum name = true ->
  fetched up info stat rat tou ->
  ~ all_ok info stat rat tou ->
  generate_wrapped srv (inr (VDict [("username", VStr name)])) up
  = {| events := submits srv name;
       answer :=
         error_response "Failed to fetch data from Codeforces API" 500 |}.
Proof.
  intros Halnum Hf Hbad. rewrite generate_wrapped_dict. cbv zeta.
  change (dict_get "username" [("username", VStr name)])
    with (Some (VStr name)).
  change (default VNone (Some (VStr name))) with (VStr name).
  rewrite (truthy_alnum _ Halnum). cbn [negb as_str]. rewrite Halnum.
  cbn [negb]. rewrite (aggregate_fetched _ _ _ _ _ _ _ Hf).
  rewrite bool_decide_eq_true_2; [done|].
  unfold all_ok in Hbad. rewrite !Exists_cons.
  destruct (decide (status info = "OK")); [|by left].
  destruct (decide (status stat = "OK")); [|by right; left].
  destruct (decide (status rat = "OK")); [|by right; right; left].
  destruct (decide (status tou = "OK")); [|by right; right; right; left].
  by destruct Hbad.
Qed.

Lemma failed_status_aborts_witness :
  generate_wrapped Samples.srv_utc (inr (VDict [("username", VStr "nobody")]))
    up_unknown_handle
  = {| events := submits Samples.srv_utc "nobody";
       answer :=
         error_response "Failed to fetch data from Codeforces API" 500 |}.
Proof.
  apply (failed_status_aborts Samples.srv_utc "nobody" up_unknown_handle
           {| status := "FAILED"; result := [] |}
           {| status := "FAILED"; result := [] |}
           {| status := "FAILED"; result := [] |}
           {| status := "OK"; result := [Samples.tourist] |}).
  - reflexivity.
  - repeat split; reflexivity.
  - intros (H & _). discriminate H.
Defined.

Lemma aggregate_first_failure srv name up e :
  first_failure up = Some e -> aggregate srv name up = inl e.
Proof.
  unfold first_failure, aggregate.
  destruct (user_info up) as [e1|info]; [by intros [= ->]|].
  destruct (user_status up) as [e2|stat]; [by intros [= ->]|].
  destruct (user_rating up) as [e3|rat]; [by intros [= ->]|].
  destruct (tourist_info up) as [e4|tou]; [by intros [= ->]|].
  discriminate.
Qed.

(** X5. When fetches raise, the request fails with the text of the first
    exception in the order [user.info], [user.status], [user.rating],
    [user.info] of [tourist]; what the other fetches returned or raised,
    a failed status included, plays no part. The four fetches were all
    submitted before. *)
Theorem first_fetch_exception_wins srv name up e :
  isalnum name = true ->
  first_failure up = Some e ->
  generate_wrapped srv (inr (VDict [("username", VStr name)])) up
  = {| events :=
         submits srv name
         ++ [LogError ("Exception in generate_wrapped: " +:+ str_exn e)];
       answer := error_response (str_exn e) 500 |}.
Proof.
  intros Halnum Hfirst. apply aggregate_exception_echoed; [done|].
  by apply aggregate_first_failure.
Qed.

Lemma first_fetch_exception_wins_witness :
  generate_wrapped Samples.srv_utc (inr (VDict [("username", VStr "alice")]))
    up_broken
  = {| events :=
         submits Samples.srv_utc "alice"
         ++ [LogError ("Exception in generate_wrapped: "
                       +:+ str_exn (RequestException "Connection aborted."))];
       answer :=
         error_response (str_exn (RequestException "Connection aborted.")) 500 |}.
Proof.
  apply (first_fetch_exception_wins Samples.srv_utc "alice" up_broken
           (RequestException "Connection aborted."));
    reflexivity.
Defined.

(** X6. Answers with status [OK] that lack what the route indexes fail
    with the text of the indexing error: "list index out of range" for an
    empty profile list or an empty reference list, and "'rating'" for a
    reference user without rating, which is required even when the
    profile itself has no rating and the percentile would be "N/A". *)
Theorem missing_data_in_ok_answers srv name up info stat rat tou :
  fetched up info stat rat tou ->
  all_ok info stat rat tou ->
  (result info = [] -> aggregate srv name up = inl IndexError)
  /\ (result info <> [] -> result tou = [] ->
      aggregate srv name up = inl IndexError)
  /\ (forall tourist_data,
        result info <> [] -> head (result tou) = Some tourist_data ->
        rating tourist_data = None ->
        aggregate srv name up = inl (KeyError "rating"))
  /\ str_exn IndexError = "list index out of range"
  /\ str_exn (KeyError "rating") = "'rating'".
Proof.
  intros Hf (H1 & H2 & H3 & H4).
  rewrite (aggregate_fetched _ _ _ _ _ _ _ Hf), H1, H2, H3, H4.
  rewrite bool_decide_eq_false_2
    by (rewrite !Exists_cons, Exists_nil; intros [H|[H|[H|[H|[]]]]]; by apply H).
  split; [by intros ->|]. split.
  - intros Hne ->. by destruct (result info).
  - split; [|done]. intros t Hne Ht Hr.
    destruct (result info); [done|]. destruct (result tou); [done|].
    injection Ht as ->. simpl. by rewrite Hr.
Qed.

Lemma missing_data_in_ok_answers_witness :
  (result {| status := "OK"; result := ([] : list user) |} = [] ->
   aggregate Samples.srv_utc "nobody" up_no_profile = inl IndexError)
  /\ (result {| status := "OK"; result := ([] : list user) |} <> [] ->
      result {| status := "OK"; result := [Samples.tourist] |} = [] ->
      aggregate Samples.srv_utc "nobody" up_no_profile = inl IndexError)
  /\ (forall tourist_data,
        result {| status := "OK"; result := ([] : list user) |} <> [] ->
        head (result {| status := "OK"; result := [Samples.tourist] |})
        = Some tourist_data ->
        rating tourist_data = None ->
        aggregate Samples.srv_utc "nobody" up_no_profile
        = inl (KeyError "rating"))
  /\ str_exn IndexError = "list index out of range"
  /\ str_exn (KeyError "rating") = "'rating'".
Proof.
  apply (missing_data_in_ok_answers Samples.srv_utc "nobody" up_no_profile
           {| status := "OK"; result := [] |}
           {| status := "OK"; result := [] |}
           {| status := "OK"; result := [] |}
           {| status := "OK"; result := [Samples.tourist] |});
    repeat split; reflexivity.
Defined.

(** *** Rejected attempts *)

Lemma filter_accepted_idemp (submissions : list submission) :
  filter accepted (filter accepted submissions) = filter accepted submissions.
Proof.
  induction submissions as [|s l IH]; [done|].
  rewrite filter_cons. destruct (decide (accepted s)) as [Hs|Hs]; [|done].
  by rewrite filter_cons, decide_True, IH.
Qed.

Lemma filter_yearly_accepted ys (submissions : list submission) :
  filter (fun sub => accepted sub /\ this_year ys sub)
    (filter accepted submissions)
  = filter (fun sub => accepted sub /\ this_year ys sub) submissions.
Proof.
  induction submissions as [|s l IH]; [done|].
  rewrite !filter_cons. destruct (decide (accepted s)) as [Hs|Hs].
  - rewrite filter_cons. by rewrite IH.
  - rewrite IH. rewrite decide_False; [done|]. by intros [? _].
Qed.

(** X7. Submissions with a verdict other than [OK] play no part in any
    statistic: dropping them from the history changes neither the values
    computed nor the exception raised. *)
Theorem rejected_attempts_are_ignored srv user_data submissions contests top :
  compute_locals srv user_data (filter accepted submissions) contests top
  = compute_locals srv user_data submissions contests top.
Proof.
  unfold compute_locals, solved_days, topics, submission_months,
    total_solved, yearly_solved.
  by rewrite filter_accepted_idemp, filter_yearly_accepted.
Qed.

(** *** The best contest placement *)

Lemma min_list_spec x l :
  (min_list x l = x \/ min_list x l ∈ l)
  /\ min_list x l <= x /\ forall y, y ∈ l -> min_list x l <= y.
Proof.
  unfold min_list. revert x. induction l as [|z l IH]; intros x; simpl.
  - split; [by left|]. split; [lia|]. by intros y ?%not_elem_of_nil.
  - destruct (IH (Z.min x z)) as (Hin & Hle & Hall).
    split; [|split].
    + destruct Hin as [Heq|Hin]; [|right; by right].
      destruct (Z.min_spec x z) as [[_ Hm]|[_ Hm]]; rewrite Hm in *.
      * by left.
      * right. rewrite Heq. by left.
    + lia.
    + intros y [->|Hy]%elem_of_cons; [lia|by apply Hall].
Qed.

(** X8. [highest_rank] is the numerically smallest placement: with at
    least one contest result it is the rank of one of them and no result
    has a smaller rank; without any it is the string "N/A". *)
Theorem highest_rank_is_the_minimum contests :
  match contests with
  | [] => highest_rank contests = VStr "N/A"
  | _ => exists m, highest_rank contests = VInt m
                   /\ (exists c, c ∈ contests /\ contest_rank c = m)
                   /\ forall c, c ∈ contests -> m <= contest_rank c
  end.
Proof.
  destruct contests as [|c cs]; [done|].
  unfold highest_rank. simpl.
  destruct (min_list_spec (contest_rank c) (contest_rank <$> cs))
    as (Hin & Hle & Hall).
  eexists. split; [done|]. split.
  - destruct Hin as [Heq|Hin].
    + exists c. split; [by left|done].
    + apply list_elem_of_fmap in Hin as (c' & Heq & Hc').
      exists c'. split; [by right|done].
  - intros c' [->|Hc']%elem_of_cons; [done|].
    apply Hall, list_elem_of_fmap. by exists c'.
Qed.

(** *** Counting problems *)

(** The key of a problem identity. *)
Lemma problem_key_of_identity sub :
  problem_key sub = identity_key (identity sub).
Proof. reflexivity. Qed.

Lemma identity_key_inj id1 id2 :
  identity_key id1 = identity_key id2 -> id1 = id2.
Proof.
  destruct id1 as [c1 i1], id2 as [c2 i2]. intros Heq.
  pose (s1 := {| sub_problem := {| contestId := c1; index := i1; tags := None |};
                 verdict := ""; creationTimeSeconds := 0 |}).
  pose (s2 := {| sub_problem := {| contestId := c2; index := i2; tags := None |};
                 verdict := ""; creationTimeSeconds := 0 |}).
  by apply (proj1 (problem_key_inj s1 s2)).
Qed.

Lemma size_keys (l : list submission) :
  size (list_to_set (problem_key <$> l) : gset string)
  = length (remove_dups (identity <$> l)).
Proof.
  assert (Heq : (list_to_set (problem_key <$> l) : gset string)
                = list_to_set (identity_key <$> remove_dups (identity <$> l))).
  { apply set_eq. intros k.
    rewrite !elem_of_list_to_set, !list_elem_of_fmap. split.
    - intros (s & -> & Hs). exists (identity s). split; [done|].
      apply elem_of_remove_dups, list_elem_of_fmap. by exists s.
    - intros (id & -> & Hid). rewrite elem_of_remove_dups in Hid.
      apply list_elem_of_fmap in Hid as (s & -> & Hs). by exists s. }
  rewrite Heq, size_list_to_set, length_fmap; [done|].
  assert (Hinj : Inj (=) (=) identity_key)
    by (intros ? ?; apply identity_key_inj).
  apply NoDup_fmap_2; [done|apply NoDup_remove_dups].
Qed.

(** X9. [total_problems_solved] is the number of distinct problems, as
    pairs of [contestId] and [index], among the accepted submissions, and
    [problems_solved_this_year] the number among those on or after the
    year boundary: the text keys never merge two problems nor split
    one. *)
Theorem solved_counts_are_distinct_problems ys submissions :
  size (total_solved submissions)
  = length (remove_dups (identity <$> filter accepted submissions))
  /\ size (yearly_solved ys submissions)
     = length (remove_dups
                 (identity <$>
                    filter (fun sub => accepted sub /\ this_year ys sub)
                      submissions)).
Proof. split; apply size_keys. Qed.

Local Open Scope list_scope.

(** *** The longest streak, characterised *)

Lemma has_run_mono days days' k :
  (forall d, d ∈ days -> d ∈ days') -> has_run days k -> has_run days' k.
Proof. intros Hsub (d & Hd). exists d. auto. Qed.

Lemma sorted_app_lt (l1 l2 : list Z) x :
  StronglySorted Z.lt (l1 ++ x :: l2) ->
  (forall y, y ∈ l1 -> y < x) /\ (forall y, y ∈ l2 -> x < y).
Proof.
  induction l1 as [|a l1 IH]; simpl; intros Hs.
  - apply StronglySorted_inv in Hs as [_ Hall]. split.
    + by intros y ?%not_elem_of_nil.
    + intros y Hy. by apply (proj1 (Forall_forall _ _) Hall).
  - apply StronglySorted_inv in Hs as [Hs Hall].
    destruct (IH Hs) as [H1 H2]. split; [|done].
    intros y [->|Hy]%elem_of_cons; [|by apply H1].
    apply (proj1 (Forall_forall _ _) Hall), elem_of_app. right. by left.
Qed.

Lemma streak_loop_cons2 prev next rest longest current :
  streak_loop (prev :: next :: rest) longest current
  = if decide (next = prev + 1)
    then streak_loop (next :: rest) longest (current + 1)
    else streak_loop (next :: rest) (Z.max longest current) 1.
Proof. reflexivity. Qed.

(** The loop invariant: [current] is the length of the run that ends at
    the day just read, and [max longest current] bounds exactly the runs
    among the days read so far. *)
Lemma streak_loop_runs rest : forall past prev longest current,
  StronglySorted Z.lt (past ++ prev :: rest) ->
  1 <= current ->
  (forall i, 0 <= i < current -> prev - i ∈ past ++ [prev]) ->
  prev - current ∉ past ++ [prev] ->
  (forall k, 1 <= k ->
     k <= Z.max longest current <-> has_run (past ++ [prev]) k) ->
  forall k, 1 <= k ->
    k <= Z.max (streak_loop (prev :: rest) longest current).1
               (streak_loop (prev :: rest) longest current).2
    <-> has_run (past ++ prev :: rest) k.
Proof.
  induction rest as [|next rest IH];
    intros past prev longest current Hsorted Hcur Hrun Hstop Hinv k Hk.
  { simpl. by apply Hinv. }
  rewrite streak_loop_cons2.
  assert (Hlist : past ++ prev :: next :: rest
                  = (past ++ [prev]) ++ next :: rest)
    by (by rewrite <-app_assoc).
  destruct (sorted_app_lt _ _ _ Hsorted) as [Hpast _].
  assert (Hupto : forall y, y ∈ past ++ [prev] -> y <= prev).
  { intros y [Hy%Hpast|Hy%list_elem_of_singleton]%elem_of_app; lia. }
  rewrite Hlist in Hsorted |- *.
  destruct (sorted_app_lt _ _ _ Hsorted) as [Hbelow _].
  assert (Hprev : prev < next)
    by (apply Hbelow, elem_of_app; right; by left).
  assert (Hsplit : forall y, y ∈ (past ++ [prev]) ++ [next]
                             <-> y ∈ past ++ [prev] \/ y = next).
  { intros y. rewrite (elem_of_app (past ++ [prev])), list_elem_of_singleton.
    done. }
  (* a run among the days read that reaches [next] ends there *)
  assert (Hend : forall d k', 1 <= k' ->
            (forall i, 0 <= i < k' -> d + i ∈ (past ++ [prev]) ++ [next]) ->
            (forall i, 0 <= i < k' -> d + i ∈ past ++ [prev])
            \/ d + (k' - 1) = next).
  { intros d k' Hk' Hd.
    destruct (proj1 (Hsplit _) (Hd (k' - 1) ltac:(lia))) as [Hlast|Hlast];
      [left|by right].
    intros i Hi. destruct (proj1 (Hsplit _) (Hd i Hi)) as [?|Heq]; [done|].
    apply Hbelow in Hlast. lia. }
  destruct (decide (next = prev + 1)) as [Hnext|Hnext].
  - (* the run goes on *)
    rewrite decide_True by done.
    apply (IH (past ++ [prev]) next longest (current + 1));
      [done|lia| | |
       |done].
    + intros i Hi. apply Hsplit.
      destruct (decide (i = 0)) as [->|Hi0]; [right; lia|left].
      replace (next - i) with (prev - (i - 1)) by lia. apply Hrun. lia.
    + intros [Hin|Heq]%Hsplit; [|lia].
      apply Hstop. by replace (prev - current) with (next - (current + 1)) by lia.
    + intros k' Hk'. split.
      * intros Hle. destruct (decide (k' <= Z.max longest current)) as [Hold|Hnew].
        { apply (has_run_mono (past ++ [prev])); [|by apply Hinv].
          intros y Hy. apply Hsplit. by left. }
        exists (next - current). intros i Hi. apply Hsplit.
        destruct (decide (i = current)) as [->|Hic]; [right; lia|left].
        replace (next - current + i) with (prev - (current - 1 - i)) by lia.
        apply Hrun. lia.
      * intros (d & Hd).
        destruct (Hend d k' Hk' Hd) as [Hold|Hlast].
        { assert (k' <= Z.max longest current) by (apply Hinv; [done|by exists d]).
          lia. }
        destruct (decide (k' <= current + 1)) as [|Hbig]; [lia|].
        exfalso. apply Hstop.
        destruct (proj1 (Hsplit _) (Hd (k' - 1 - (current + 1)) ltac:(lia)))
          as [Hin|Heq]; [|lia].
        by replace (prev - current) with (d + (k' - 1 - (current + 1))) by lia.
  - (* the run is broken *)
    rewrite decide_False by done.
    apply (IH (past ++ [prev]) next (Z.max longest current) 1);
      [done|lia| | |
       |done].
    + intros i Hi. apply Hsplit. right. lia.
    + intros [Hin%Hupto|Heq]%Hsplit; lia.
    + intros k' Hk'. split.
      * intros Hle. destruct (decide (k' <= Z.max longest current)) as [Hold|Hnew].
        { apply (has_run_mono (past ++ [prev])); [|by apply Hinv].
          intros y Hy. apply Hsplit. by left. }
        exists next. intros i Hi. apply Hsplit. right. lia.
      * intros (d & Hd).
        destruct (Hend d k' Hk' Hd) as [Hold|Hlast].
        { assert (k' <= Z.max longest current) by (apply Hinv; [done|by exists d]).
          lia. }
        destruct (decide (k' = 1)) as [|Hbig]; [lia|].
        exfalso.
        destruct (proj1 (Hsplit _) (Hd (k' - 2) ltac:(lia)))
          as [Hin%Hupto|Heq]; lia.
Qed.

Lemma longest_streak_max days :
  longest_streak days
  = Z.max (streak_loop days 0 1).1 (streak_loop days 0 1).2.
Proof. unfold longest_streak. by destruct (streak_loop days 0 1). Qed.

(** On a non-empty list of strictly increasing days, the streak is at
    least [k] exactly when the list holds [k] days in a row. *)
Lemma longest_streak_runs days k :
  StronglySorted Z.lt days -> days <> [] -> 1 <= k ->
  k <= longest_streak days <-> has_run days k.
Proof.
  intros Hsorted Hne Hk. destruct days as [|prev rest]; [done|].
  rewrite longest_streak_max.
  apply (streak_loop_runs rest [] prev 0 1); try done.
  - intros i Hi. replace (prev - i) with prev by lia. by left.
  - simpl. intros ?%list_elem_of_singleton. lia.
  - intros k' Hk'. simpl. split.
    + intros Hle. exists prev. intros i Hi.
      replace (prev + i) with prev by lia. by left.
    + intros (d & Hd). destruct (decide (k' <= 1)); [lia|].
      pose proof (Hd 0 ltac:(lia)) as H0%list_elem_of_singleton.
      pose proof (Hd 1 ltac:(lia)) as H1%list_elem_of_singleton. lia.
Qed.

Lemma utcfromtimestamp_date_day ts d :
  utcfromtimestamp_date ts = inr d -> d = utc_day ts.
Proof.
  unfold utcfromtimestamp_date, utc_day.
  destruct (_ && _); [by intros [= <-]|discriminate].
Qed.

Lemma Forall2_elem_of_r {A B} (P : A -> B -> Prop) l bs b :
  Forall2 P l bs -> b ∈ bs -> exists a, a ∈ l /\ P a b.
Proof.
  induction 1 as [|a b' l bs Hab _ IH]; [by intros ?%not_elem_of_nil|].
  intros [->|Hb]%elem_of_cons.
  - exists a. split; [by left|done].
  - destruct (IH Hb) as (a' & Ha' & HP). exists a'. split; [by right|done].
Qed.

Lemma Forall2_elem_of_l {A B} (P : A -> B -> Prop) l bs a :
  Forall2 P l bs -> a ∈ l -> exists b, b ∈ bs /\ P a b.
Proof.
  induction 1 as [|a' b l bs Hab _ IH]; [by intros ?%not_elem_of_nil|].
  intros [->|Ha]%elem_of_cons.
  - exists b. split; [by left|done].
  - destruct (IH Ha) as (b' & Hb' & HP). exists b'. split; [by right|done].
Qed.

Lemma sorted_le_nodup_lt (l : list Z) :
  StronglySorted Z.le l -> NoDup l -> StronglySorted Z.lt l.
Proof.
  induction l as [|x l IH]; [constructor|].
  intros [Hs Hall]%StronglySorted_inv [Hx Hnd]%NoDup_cons.
  constructor; [by apply IH|].
  apply Forall_forall. intros y Hy.
  pose proof (proj1 (Forall_forall _ _) Hall y Hy).
  assert (y <> x) by (by intros ->). lia.
Qed.

(** X10. When the dates can be computed, [solved_days] lists the UTC days
    on which a submission was accepted, each day once, in strictly
    increasing order, and no other day. *)
Theorem solved_days_sorted_and_exact submissions days :
  solved_days submissions = inr days ->
  StronglySorted Z.lt days
  /\ forall d, d ∈ days <-> solved_on submissions d.
Proof.
  unfold solved_days. intros (ds & Hds & [= <-])%bind_inr.
  apply mapM_Forall2 in Hds. split.
  - apply sorted_le_nodup_lt.
    + apply (StronglySorted_merge_sort Z.le).
    + rewrite merge_sort_Permutation. apply NoDup_elements.
  - intros d. rewrite merge_sort_Permutation, elem_of_elements,
      elem_of_list_to_set.
    unfold solved_on. split.
    + intros Hd. destruct (Forall2_elem_of_r _ _ _ _ Hds Hd) as (s & Hs & Hsd).
      apply list_elem_of_filter in Hs as [Hok Hs].
      exists s. repeat split; [done..|].
      by rewrite (utcfromtimestamp_date_day _ _ Hsd).
    + intros (s & Hs & Hok & <-).
      assert (Hin : s ∈ filter accepted submissions)
        by (by apply list_elem_of_filter).
      destruct (Forall2_elem_of_l _ _ _ _ Hds Hin) as (d & Hd & Hsd).
      by rewrite <-(utcfromtimestamp_date_day _ _ Hsd).
Qed.

Lemma solved_days_sorted_and_exact_witness :
  StronglySorted Z.lt [57; 19723; 19724; 19725; 19727]
  /\ forall d, d ∈ [57; 19723; 19724; 19725; 19727]
                <-> solved_on Samples.history d.
Proof.
  apply (solved_days_sorted_and_exact Samples.history
           [57; 19723; 19724; 19725; 19727]).
  vm_compute. reflexivity.
Defined.

(** X11. With at least one accepted submission, [longest_streak] is the
    length of the longest run of consecutive UTC days each with an
    accepted submission: for every [k] from 1 on, the streak is [k] or
    more exactly when some [k] days in a row are all solved days. *)
Theorem longest_streak_is_the_longest_run submissions days k :
  solved_days submissions = inr days ->
  (exists s, s ∈ submissions /\ accepted s) ->
  1 <= k ->
  k <= longest_streak days
  <-> exists d, forall i, 0 <= i < k -> solved_on submissions (d + i).
Proof.
  intros Hdays (s & Hs & Hok) Hk.
  destruct (solved_days_sorted_and_exact _ _ Hdays) as [Hsorted Hmem].
  assert (Hne : days <> []).
  { intros ->.
    assert (Hin : utc_day (creationTimeSeconds s) ∈ ([] : list Z))
      by (apply Hmem; by exists s).
    by apply not_elem_of_nil in Hin. }
  rewrite (longest_streak_runs days k Hsorted Hne Hk). unfold has_run.
  split; intros (d & Hd); exists d; intros i Hi; by apply Hmem, Hd.
Qed.

Lemma longest_streak_is_the_longest_run_witness :
  3 <= longest_streak [57; 19723; 19724; 19725; 19727]
  <-> exists d, forall i, 0 <= i < 3 -> solved_on Samples.history (d + i).
Proof.
  apply (longest_streak_is_the_longest_run Samples.history
           [57; 19723; 19724; 19725; 19727] 3).
  - vm_compute. reflexivity.
  - exists (Samples.sub 1 "A" ["dp"; "math"] "OK" Samples.jan1_2024).
    split; [apply list_elem_of_here|reflexivity].
  - lia.
Defined.

(** *** The most common element *)

Lemma elem_of_distinct x l : x ∈ distinct l <-> x ∈ l.
Proof.
  induction l as [|y l IH]; simpl; [done|].
  rewrite !elem_of_cons, list_elem_of_filter, IH.
  destruct (decide (x = y)); tauto.
Qed.

Lemma filter_all {A} (P : A -> Prop) `{forall x, Decision (P x)} (l : list A) :
  (forall x, x ∈ l -> P x) -> filter P l = l.
Proof.
  induction l as [|x l IH]; intros Hall; [done|].
  rewrite filter_cons, decide_True by (apply Hall; by left).
  f_equal. apply IH. intros y Hy. apply Hall. by right.
Qed.

Lemma NoDup_distinct l : NoDup (distinct l).
Proof.
  induction l as [|y l IH]; simpl; [constructor|].
  apply NoDup_cons. split.
  - rewrite list_elem_of_filter. by intros [? _].
  - by apply NoDup_filter.
Qed.

Lemma distinct_app l1 l2 :
  distinct (l1 ++ l2)
  = distinct l1 ++ filter (fun y => y ∉ l1) (distinct l2).
Proof.
  induction l1 as [|x l1 IH]; simpl.
  - symmetry. apply filter_all.
    intros y _. apply not_elem_of_nil.
  - rewrite IH, filter_app, list_filter_filter. do 2 f_equal.
    apply list_filter_iff. intros y. rewrite not_elem_of_cons. tauto.
Qed.

Lemma occurrences_singleton k x :
  occurrences k [x] = if decide (x = k) then 1%nat else 0%nat.
Proof.
  unfold occurrences. rewrite filter_cons, filter_nil.
  by destruct (decide (x = k)).
Qed.

Lemma occurrences_pos k l : k ∈ l -> (0 < occurrences k l)%nat.
Proof.
  intros (l1 & l2 & ->)%list_elem_of_split.
  rewrite occurrences_app. unfold occurrences at 2.
  rewrite filter_cons, decide_True by done. simpl. lia.
Qed.

(** Storing under a key of a table built from a list of distinct keys. *)
Lemma dict_set_table (f : string -> nat) ks x v :
  NoDup ks ->
  dict_set x v ((fun k => (k, f k)) <$> ks)
  = if decide (x ∈ ks)
    then (fun k => (k, if decide (k = x) then v else f k)) <$> ks
    else ((fun k => (k, f k)) <$> ks) ++ [(x, v)].
Proof.
  induction ks as [|k ks IH]; intros Hnd.
  { by rewrite decide_False by apply not_elem_of_nil. }
  csimpl. apply NoDup_cons in Hnd as [Hk Hnd].
  destruct (decide (x = k)) as [->|Hne].
  - rewrite decide_True by (by left). rewrite decide_True by done.
    f_equal. apply list_fmap_ext. intros i y Hy.
    rewrite decide_False; [done|].
    intros ->. apply Hk. by eapply list_elem_of_lookup_2.
  - rewrite IH by done. destruct (decide (x ∈ ks)) as [Hin|Hnin].
    + rewrite decide_True by (by right).
      by rewrite (decide_False (P := k = x)) by done.
    + rewrite decide_False; [done|]. by intros [?|?]%elem_of_cons.
Qed.

Lemma dict_get_table (f : string -> nat) ks x :
  dict_get x ((fun k => (k, f k)) <$> ks)
  = if decide (x ∈ ks) then Some (f x) else None.
Proof.
  induction ks as [|k ks IH].
  { by rewrite decide_False by apply not_elem_of_nil. }
  csimpl. destruct (decide (x = k)) as [->|Hne].
  - by rewrite decide_True by (by left).
  - rewrite IH. destruct (decide (x ∈ ks)).
    + by rewrite decide_True by (by right).
    + rewrite decide_False; [done|]. by intros [?|?]%elem_of_cons.
Qed.

(** A [Counter] lists the distinct elements in the order of their first
    occurrence, each with the number of its occurrences. *)
Lemma Counter_table l :
  Counter l = (fun k => (k, occurrences k l)) <$> distinct l.
Proof.
  induction l as [|x l IH] using rev_ind; [done|].
  unfold Counter in *. rewrite fold_left_app. simpl. rewrite IH.
  unfold counter_incr. rewrite dict_get_table, dict_set_table
    by apply NoDup_distinct.
  rewrite distinct_app. simpl. rewrite filter_cons, filter_nil.
  destruct (decide (x ∈ distinct l)) as [Hin|Hnin].
  - rewrite decide_False by (rewrite <-elem_of_distinct; tauto).
    rewrite app_nil_r. apply list_fmap_ext. intros i k _.
    rewrite occurrences_app, occurrences_singleton. simpl.
    destruct (decide (k = x)) as [->|Hne].
    + rewrite decide_True by done. f_equal. lia.
    + rewrite decide_False by done. f_equal. lia.
  - rewrite decide_True by (by rewrite <-elem_of_distinct).
    rewrite fmap_app. simpl. f_equal.
    + apply list_fmap_ext. intros i k Hk.
      rewrite occurrences_app, occurrences_singleton.
      rewrite decide_False; [f_equal; lia|].
      intros ->. apply Hnin. by eapply list_elem_of_lookup_2.
    + rewrite occurrences_app, occurrences_singleton, decide_True by done.
      do 2 f_equal. unfold occurrences.
      replace (filter (fun y => y = x) l) with ([] : list string); [done|].
      symmetry. apply elem_of_nil_inv.
      intros y [-> Hy]%list_elem_of_filter. apply Hnin.
      by apply elem_of_distinct.
Qed.

(** [max_count] returns the first item with the largest count. *)
Lemma max_count_first items : forall pre best mid,
  (forall p, p ∈ pre -> (p.2 < best.2)%nat) ->
  (forall p, p ∈ mid -> (p.2 <= best.2)%nat) ->
  exists c1 c2,
    pre ++ best :: mid ++ items = c1 ++ max_count best items :: c2
    /\ (forall p, p ∈ c1 -> (p.2 < (max_count best items).2)%nat)
    /\ (forall p, p ∈ c2 -> (p.2 <= (max_count best items).2)%nat).
Proof.
  induction items as [|x items IH]; intros pre best mid Hpre Hmid; simpl.
  { exists pre, mid. by rewrite app_nil_r. }
  destruct (best.2 <? x.2)%nat eqn:Hlt.
  - apply Nat.ltb_lt in Hlt.
    destruct (IH (pre ++ best :: mid) x []) as (c1 & c2 & Heq & H1 & H2).
    + intros p [Hp|[->|Hp]%elem_of_cons]%elem_of_app; [|done|].
      * specialize (Hpre p Hp). lia.
      * specialize (Hmid p Hp). lia.
    + by intros p ?%not_elem_of_nil.
    + exists c1, c2. split; [|done]. rewrite <-Heq. simpl.
      by rewrite <-app_assoc.
  - apply Nat.ltb_ge in Hlt.
    destruct (IH pre best (mid ++ [x])) as (c1 & c2 & Heq & H1 & H2).
    + done.
    + intros p [Hp|Hp%list_elem_of_singleton]%elem_of_app;
        [by apply Hmid|by subst p].
    + exists c1, c2. split; [|done]. rewrite <-Heq.
      by rewrite <-(app_assoc mid).
Qed.

Lemma NoDup_pivot {A} (a a' b b' : list A) x :
  NoDup (a ++ x :: b) -> a ++ x :: b = a' ++ x :: b' -> a = a'.
Proof.
  revert a'. induction a as [|y a IH]; intros [|y' a'] Hnd Heq; simpl in *.
  - done.
  - injection Heq as <- ->. apply NoDup_cons in Hnd as [Hx _].
    destruct Hx. apply elem_of_app. right. by left.
  - injection Heq as -> <-. apply NoDup_cons in Hnd as [Hx _].
    destruct Hx. apply elem_of_app. right. by left.
  - injection Heq as -> Heq. apply NoDup_cons in Hnd as [_ Hnd].
    f_equal. by apply IH.
Qed.

(** X12. [Counter(l).most_common(1)[0][0]] on a non-empty list never
    raises and returns an element of the list that no element outnumbers;
    among several with the largest count it is the one met first: every
    element that occurs before its first occurrence has a strictly
    smaller count. The favorite topic and the best month are computed
    this way. *)
Theorem most_common_is_first_maximum l :
  l <> [] ->
  exists t,
    most_common_or_na l = inr t
    /\ t ∈ l
    /\ (forall k, (occurrences k l <= occurrences t l)%nat)
    /\ exists l1 l2,
         l = l1 ++ t :: l2 /\ (t ∉ l1)
         /\ forall k, k ∈ l1 -> (occurrences k l < occurrences t l)%nat.
Proof.
  intros Hne. unfold most_common_or_na.
  destruct l as [|x0 l0]; [done|]. set (l := x0 :: l0) in *.
  rewrite Counter_table.
  change (distinct l) with (x0 :: filter (fun y => y <> x0) (distinct l0)).
  set (ks := filter (fun y => y <> x0) (distinct l0)).
  assert (Hks : distinct l = x0 :: ks) by done.
  simpl.
  destruct (max_count_first ((fun k => (k, occurrences k l)) <$> ks)
              [] (x0, occurrences x0 l) [])
    as (c1 & c2 & Heq & H1 & H2);
    [by intros p ?%not_elem_of_nil..|].
  set (r := max_count _ _) in *. simpl in Heq.
  change ((x0, occurrences x0 l) :: ((fun k => (k, occurrences k l)) <$> ks))
    with ((fun k => (k, occurrences k l)) <$> (x0 :: ks)) in Heq.
  rewrite <-Hks in Heq.
  apply fmap_app_inv in Heq as (ks1 & kr & -> & Hr & Hsplit).
  symmetry in Hr. apply fmap_cons_inv in Hr as (t & ks2 & Ht & -> & ->).
  exists r.1. split; [done|].
  assert (Hr1 : r.1 = t) by (by rewrite Ht).
  assert (Hr2 : r.2 = occurrences t l) by (by rewrite Ht).
  rewrite Hr1.
  assert (Hin : t ∈ l).
  { apply elem_of_distinct. rewrite Hsplit, elem_of_app. right. by left. }
  split; [done|]. split.
  - intros k. destruct (decide (k ∈ l)) as [Hk|Hk].
    + apply elem_of_distinct in Hk. rewrite Hsplit in Hk.
      apply elem_of_app in Hk as [Hk|[->|Hk]%elem_of_cons]; [|done|].
      * assert (Hp : (k, occurrences k l) ∈ (fun k => (k, occurrences k l)) <$> ks1)
          by (apply list_elem_of_fmap; by exists k).
        specialize (H1 _ Hp). simpl in H1. lia.
      * assert (Hp : (k, occurrences k l) ∈ (fun k => (k, occurrences k l)) <$> ks2)
          by (apply list_elem_of_fmap; by exists k).
        specialize (H2 _ Hp). simpl in H2. lia.
    + unfold occurrences at 1.
      replace (filter (fun y => y = k) l) with ([] : list string);
        [simpl; lia|].
      symmetry. apply elem_of_nil_inv.
      by intros y [-> Hy]%list_elem_of_filter.
  - destruct (list_elem_of_split_l _ _ Hin) as (l1 & l2 & Hl & Hnot).
    exists l1, l2. split; [done|]. split; [done|].
    intros k Hk.
    assert (Hd : distinct l
                 = distinct l1 ++ t :: filter (fun y => y ∉ l1)
                                         (filter (fun y => y <> t) (distinct l2))).
    { rewrite Hl at 1. rewrite distinct_app. simpl.
      by rewrite filter_cons, decide_True by done. }
    assert (Hks1 : ks1 = distinct l1).
    { eapply (NoDup_pivot ks1 (distinct l1) ks2 _ t).
      - rewrite <-Hsplit. apply NoDup_distinct.
      - rewrite <-Hsplit. exact Hd. }
    assert (Hp : (k, occurrences k l) ∈ (fun k => (k, occurrences k l)) <$> ks1).
    { apply list_elem_of_fmap. exists k. split; [done|].
      rewrite Hks1. by apply elem_of_distinct. }
    specialize (H1 _ Hp). simpl in H1. lia.
Qed.

Lemma most_common_is_first_maximum_witness :
  exists t,
    most_common_or_na ["greedy"; "dp"; "math"; "dp"; "math"] = inr t
    /\ t ∈ ["greedy"; "dp"; "math"; "dp"; "math"]
    /\ (forall k,
          (occurrences k ["greedy"; "dp"; "math"; "dp"; "math"]
           <= occurrences t ["greedy"; "dp"; "math"; "dp"; "math"])%nat)
    /\ exists l1 l2,
         ["greedy"; "dp"; "math"; "dp"; "math"] = l1 ++ t :: l2 /\ (t ∉ l1)
         /\ forall k, k ∈ l1 ->
              (occurrences k ["greedy"; "dp"; "math"; "dp"; "math"]
               < occurrences t ["greedy"; "dp"; "math"; "dp"; "math"])%nat.
Proof.
  apply (most_common_is_first_maximum
           ["greedy"; "dp"; "math"; "dp"; "math"]).
  discriminate.
Defined.

(** *** Milestones, characterised *)

Lemma dict_display_snoc {K V} `{EqDecision K} (items : list (K * V)) k v :
  dict_display (items ++ [(k, v)]) = dict_set k v (dict_display items).
Proof. unfold dict_display. by rewrite fold_left_app. Qed.

(** In a dictionary display the last item with a given key decides. *)
Lemma dict_get_display {K V} `{EqDecision K} (items : list (K * V)) k :
  dict_get k (dict_display items)
  = snd <$> last (filter (fun kv => kv.1 = k) items).
Proof.
  induction items as [|[k' v'] items IH] using rev_ind; [done|].
  rewrite dict_display_snoc, dict_get_set, filter_app, filter_cons, filter_nil.
  simpl. destruct (decide (k = k')) as [->|Hne].
  - rewrite decide_True by done. by rewrite last_snoc.
  - rewrite decide_False by (by intros ?). by rewrite app_nil_r.
Qed.

(** With distinct boolean keys, what is collected is the value under
    [True], if any. *)
Lemma milestones_of_dict (d : list (bool * string)) :
  NoDup (dict_keys d) ->
  milestones d = match dict_get true d with Some m => [m] | None => [] end.
Proof.
  unfold milestones, dict_keys.
  induction d as [|[k v] d IH]; [done|]. csimpl.
  intros [Hk Hnd]%NoDup_cons. rewrite filter_cons. simpl.
  destruct k.
  - rewrite decide_True by done. rewrite decide_True by done. csimpl.
    f_equal.
    replace (filter (fun cm : bool * string => cm.1 = true) d)
      with ([] : list (bool * string)); [done|].
    symmetry. apply elem_of_nil_inv.
    intros [k v'] [Hkt Hin]%list_elem_of_filter. simpl in Hkt. subst k.
    apply Hk, list_elem_of_fmap. by exists (true, v').
  - rewrite decide_False by done. rewrite decide_False by done.
    by apply IH.
Qed.

(** X13. The milestone dictionary is keyed by the truth values of the
    six conditions, so the collected list is never longer than one: it
    is empty when no condition holds, and otherwise holds only the
    message of the last condition, in the order of the source, that
    holds. *)
Theorem milestones_keep_the_last_true_condition total current_rank user_data
    participated streak yearly :
  milestones (milestone_conditions total current_rank user_data participated
                streak yearly)
  = match last (true_messages
                  (milestone_items total current_rank user_data participated
                     streak yearly)) with
    | Some m => [m]
    | None => []
    end.
Proof.
  rewrite milestones_of_dict by apply milestone_conditions_keys.
  change (milestone_conditions total current_rank user_data participated
            streak yearly)
    with (dict_display (milestone_items total current_rank user_data
                          participated streak yearly)).
  rewrite dict_get_display. unfold true_messages.
  rewrite fmap_last. by destruct (last _).
Qed.

(** *** The percentile *)

(** X14. For a profile without rating the reference rating is never
    used: the statistics are the same for every reference rating, zero
    included, and the percentile is "N/A". *)
Theorem unrated_profile_ignores_the_reference srv user_data submissions
    contests top top' :
  rating user_data = None ->
  compute_locals srv user_data submissions contests top
  = compute_locals srv user_data submissions contests top'
  /\ forall l,
       compute_locals srv user_data submissions contests top = inr l ->
       l_global_percentile l = "N/A".
Proof.
  intros Hr. split.
  - unfold compute_locals, global_percentile. by rewrite Hr.
  - intros l Hl. apply compute_locals_inv in Hl
      as (? & ? & ? & pct & ? & ? & _ & _ & _ & Hpct & _ & _ & ->).
    unfold global_percentile in Hpct. rewrite Hr in Hpct.
    by injection Hpct as <-.
Qed.

Lemma unrated_profile_ignores_the_reference_witness :
  compute_locals Samples.srv_utc unrated Samples.history Samples.ratings 3000
  = compute_locals Samples.srv_utc unrated Samples.history Samples.ratings 0
  /\ forall l,
       compute_locals Samples.srv_utc unrated Samples.history Samples.ratings
         3000 = inr l ->
       l_global_percentile l = "N/A".
Proof.
  apply (unrated_profile_ignores_the_reference Samples.srv_utc unrated
           Samples.history Samples.ratings 3000 0).
  reflexivity.
Defined.

Lemma true_divide_self r : r <> 0 -> true_divide r r = inr PrimFloat.one.
Proof.
  intros Hr. unfold true_divide.
  assert (Hx : 0 < Z.abs r) by lia.
  rewrite (proj2 (Z.eqb_neq r 0)) by done.
  rewrite xorb_nilpotent, Z.sub_diag.
  change (Z.max 0 0) with 0. change (Z.max (- 0) 0) with 0.
  rewrite Z.leb_refl.
  change (Z.max (0 - 52) (-1074)) with (-52).
  change (Z.max (- -52) 0) with 52. change (Z.max (-52) 0) with 0.
  assert (Hq : round_half_even (Z.abs r * 2 ^ 52) (Z.abs r * 2 ^ 0) = 2 ^ 52).
  { unfold round_half_even. rewrite Z.pow_0_r, Z.mul_1_r.
    rewrite (Z.mul_comm (Z.abs r)), Z.div_mul, Z.mod_mul by lia.
    by rewrite (proj2 (Z.compare_lt_iff (2 * 0) (Z.abs r))) by lia. }
  rewrite Hq. reflexivity.
Qed.

(** X15. A profile whose rating equals the reference rating, whatever
    non-zero value that is, gets the percentile "Top 100.00%". *)
Theorem percentile_of_the_reference_rating user_data r :
  rating user_data = Some r -> r <> 0 ->
  global_percentile user_data r = inr "Top 100.00%".
Proof.
  intros Hr Hne. unfold global_percentile.
  rewrite Hr, (true_divide_self r Hne). reflexivity.
Qed.

Lemma percentile_of_the_reference_rating_witness :
  global_percentile Samples.tourist 3000 = inr "Top 100.00%".
Proof.
  apply (percentile_of_the_reference_rating Samples.tourist 3000).
  - reflexivity.
  - discriminate.
Defined.

(** *** Well-formed requests are answered *)

Lemma utcfromtimestamp_date_supported ts :
  supported_time ts -> utcfromtimestamp_date ts = inr (utc_day ts).
Proof.
  unfold supported_time, utcfromtimestamp_date, utc_day. intros [Hlo Hhi].
  by rewrite (proj2 (Z.leb_le _ _) Hlo), (proj2 (Z.leb_le _ _) Hhi).
Qed.

Lemma mapM_fmap {A B} (f : A -> M B) (g : A -> B) (l : list A) :
  (forall a, a ∈ l -> f a = inr (g a)) -> mapM f l = inr (g <$> l).
Proof.
  induction l as [|a l IH]; intros Hf; [done|].
  simpl. rewrite (Hf a) by (by left). simpl.
  rewrite IH by (intros b Hb; apply Hf; by right). done.
Qed.

Lemma most_common_or_na_total l : exists t, most_common_or_na l = inr t.
Proof.
  destruct l as [|x l]; [by exists "N/A"|].
  destruct (most_common_is_first_maximum (x :: l)) as (t & Ht & _); [done|].
  by exists t.
Qed.

(** Integer division raises [OverflowError] only for quotients beyond the
    float range: never when the dividend is below [2^1000]. *)
Lemma true_divide_no_overflow a b :
  b <> 0 -> Z.abs a < 2 ^ 1000 -> exists x, true_divide a b = inr x.
Proof.
  intros Hb Ha. unfold true_divide. cbv zeta.
  rewrite (proj2 (Z.eqb_neq b 0)) by done.
  destruct (a =? 0) eqn:Ha0; [by eexists|].
  apply Z.eqb_neq in Ha0.
  set (d := Z.log2 (Z.abs a) - Z.log2 (Z.abs b)).
  set (ex := if _ <=? _ then d else d - 1).
  set (e := Z.max (ex - 52) (-1074)).
  assert (Hd : d < 1000).
  { subst d. pose proof (Z.log2_nonneg (Z.abs b)).
    assert (Z.log2 (Z.abs a) < 1000)
      by (apply Z.log2_lt_pow2; lia).
    lia. }
  assert (He : e < 971).
  { subst e ex. destruct (_ <=? _); lia. }
  rewrite (proj2 (Z.ltb_ge 971 e)) by lia.
  rewrite (proj2 (Z.eqb_neq e 971)) by lia.
  by eexists.
Qed.

Lemma global_percentile_total user_data top :
  (forall r, rating user_data = Some r -> top <> 0 /\ Z.abs r < 2 ^ 1000) ->
  exists p, global_percentile user_data top = inr p.
Proof.
  intros Hr. unfold global_percentile.
  destruct (rating user_data) as [r|]; [|by eexists].
  destruct (Hr r eq_refl) as [Htop Hbound].
  destruct (true_divide_no_overflow r top Htop Hbound) as (x & ->).
  by eexists.
Qed.

(** X16. A request is answered with a record, after the four fetches and
    without a log line, whenever the handle is a string of letters and
    digits, the four answers have status [OK], the profile list and the
    reference list are not empty, the reference user has a rating, every
    accepted submission falls in a year from 1 to 9999, and, if the
    profile has a rating, the reference rating is not 0 (and the rating
    is below [2^1000] in magnitude). *)
Theorem well_formed_request_is_answered srv body name up info stat rat tou
    user_data tourist_data top :
  dict_get "username" body = Some (VStr name) ->
  isalnum name = true ->
  fetched up info stat rat tou ->
  all_ok info stat rat tou ->
  head (result info) = Some user_data ->
  head (result tou) = Some tourist_data ->
  rating tourist_data = Some top ->
  (forall s, s ∈ result stat -> accepted s ->
             supported_time (creationTimeSeconds s)) ->
  (forall r, rating user_data = Some r -> top <> 0 /\ Z.abs r < 2 ^ 1000) ->
  exists l,
    compute_locals srv user_data (result stat) (result rat) top = inr l
    /\ generate_wrapped srv (inr (VDict body)) up
       = {| events := submits srv name;
            answer := (jsonify (response_dict name l), 200) |}.
Proof.
  intros Hget Halnum Hf (H1 & H2 & H3 & H4) Hu Ht Htop Htime Hrating.
  assert (Hdates : forall s, s ∈ filter accepted (result stat) ->
            utcfromtimestamp_date (creationTimeSeconds s)
            = inr (utc_day (creationTimeSeconds s))).
  { intros s [Hok Hs]%list_elem_of_filter.
    by apply utcfromtimestamp_date_supported, Htime. }
  assert (Hl : exists l,
            compute_locals srv user_data (result stat) (result rat) top = inr l).
  { unfold compute_locals, solved_days, submission_months.
    rewrite (mapM_fmap (B := date) _
               (fun s => utc_day (creationTimeSeconds s)) _ Hdates).
    cbn [bind].
    destruct (most_common_or_na_total (topics (result stat))) as (fav & ->).
    rewrite rating_improvement_total.
    destruct (global_percentile_total user_data top Hrating) as (p & ->).
    rewrite (mapM_fmap _
               (fun s => month_name (month_of (utc_day (creationTimeSeconds s))))).
    - cbn [bind].
      destruct (most_common_or_na_total
                  ((fun s => month_name (month_of (utc_day (creationTimeSeconds s))))
                     <$> filter accepted (result stat))) as (best & ->).
      by eexists.
    - intros s Hs. unfold utcfromtimestamp_month. by rewrite (Hdates s Hs). }
  destruct Hl as (l & Hl). exists l. split; [done|].
  rewrite generate_wrapped_dict. cbv zeta. rewrite Hget.
  change (default VNone (Some (VStr name))) with (VStr name).
  rewrite (truthy_alnum _ Halnum). cbn [negb as_str]. rewrite Halnum.
  cbn [negb]. rewrite (aggregate_fetched _ _ _ _ _ _ _ Hf), H1, H2, H3, H4.
  rewrite bool_decide_eq_false_2
    by (rewrite !Exists_cons, Exists_nil; intros [H|[H|[H|[H|[]]]]]; by apply H).
  destruct (result info) as [|u us]; [done|]. injection Hu as ->.
  destruct (result tou) as [|t ts]; [done|]. injection Ht as ->.
  cbn [item0 bind ret]. rewrite Htop. cbn [field bind ret].
  by rewrite Hl.
Qed.

Lemma well_formed_request_is_answered_witness :
  exists l,
    compute_locals Samples.srv_utc Samples.expert Samples.history
      Samples.ratings 3000 = inr l
    /\ generate_wrapped Samples.srv_utc
         (inr (VDict [("username", VStr "alice")])) Samples.up_typical
       = {| events := submits Samples.srv_utc "alice";
            answer := (jsonify (response_dict "alice" l), 200) |}.
Proof.
  apply (well_formed_request_is_answered Samples.srv_utc
           [("username", VStr "alice")] "alice" Samples.up_typical
           {| status := "OK"; result := [Samples.expert] |}
           {| status := "OK"; result := Samples.history |}
           {| status := "OK"; result := Samples.ratings |}
           {| status := "OK"; result := [Samples.tourist] |}
           Samples.expert Samples.tourist 3000).
  - reflexivity.
  - reflexivity.
  - repeat split; reflexivity.
  - repeat split; reflexivity.
  - reflexivity.
  - reflexivity.
  - reflexivity.
  - intros s Hs _. cbn [result] in Hs. unfold Samples.history in Hs.
    repeat (apply elem_of_cons in Hs as [->|Hs]);
      [by vm_compute..|by apply not_elem_of_nil in Hs].
  - intros r [= <-]. split; [discriminate|reflexivity].
Defined.

(** *** The order of the submissions *)

Lemma mapM_Permutation {A B} (f : A -> M B) (l l' : list A) :
  l ≡ₚ l' ->
  forall bs, mapM f l = inr bs -> exists bs', mapM f l' = inr bs' /\ bs ≡ₚ bs'.
Proof.
  induction 1 as [|a l l' _ IH|a1 a2 l|l1 l2 l3 _ IH1 _ IH2]; intros bs Hbs.
  - exists bs. by split.
  - simpl in *. apply bind_inr in Hbs as (b & Hb & Hbs).
    apply bind_inr in Hbs as (bs0 & Hbs0 & [= <-]).
    destruct (IH _ Hbs0) as (bs' & -> & Hperm).
    exists (b :: bs'). rewrite Hb. split; [done|]. by constructor.
  - simpl in *. apply bind_inr in Hbs as (b2 & Hb2 & Hbs).
    apply bind_inr in Hbs as (bs0 & Hbs0 & [= <-]).
    apply bind_inr in Hbs0 as (b1 & Hb1 & Hbs0).
    apply bind_inr in Hbs0 as (bs1 & Hbs1 & [= <-]).
    exists (b1 :: b2 :: bs1). rewrite Hb1, Hb2. simpl. rewrite Hbs1.
    split; [done|]. apply perm_swap.
  - destruct (IH1 _ Hbs) as (bs2 & Hbs2 & Hp1).
    destruct (IH2 _ Hbs2) as (bs3 & Hbs3 & Hp2).
    exists bs3. split; [done|]. by etrans.
Qed.

(** X17. The solved sets and the list of solved days, hence both counts
    and the longest streak, do not depend on the order in which the API
    lists the submissions. *)
Theorem counts_and_days_ignore_the_order ys submissions submissions' :
  submissions ≡ₚ submissions' ->
  total_solved submissions = total_solved submissions'
  /\ yearly_solved ys submissions = yearly_solved ys submissions'
  /\ forall days, solved_days submissions = inr days ->
                  solved_days submissions' = inr days.
Proof.
  intros Hperm. split; [|split].
  - unfold total_solved. by rewrite Hperm.
  - unfold yearly_solved. by rewrite Hperm.
  - unfold solved_days. intros days (ds & Hds & [= <-])%bind_inr.
    assert (Hf : filter accepted submissions ≡ₚ filter accepted submissions')
      by (by rewrite Hperm).
    destruct (mapM_Permutation _ _ _ Hf _ Hds) as (ds' & -> & Hp).
    cbn [bind]. by rewrite Hp.
Qed.

Lemma counts_and_days_ignore_the_order_witness :
  total_solved Samples.history = total_solved (reverse Samples.history)
  /\ yearly_solved Samples.jan1_2024 Samples.history
     = yearly_solved Samples.jan1_2024 (reverse Samples.history)
  /\ forall days, solved_days Samples.history = inr days ->
                  solved_days (reverse Samples.history) = inr days.
Proof.
  apply (counts_and_days_ignore_the_order Samples.jan1_2024 Samples.history
           (reverse Samples.history)).
  symmetry. apply reverse_Permutation.
Defined.
